(** * The AccessControlList controller of provider-kafka

    A shallow embedding of [internal/controller/acl/acl.go]: the four
    operations of the [external] client ([Observe], [Create], [Update],
    [Delete]) over an explicit store holding the managed object, the
    remote cluster and the log of Admin Gateway round trips.

    The package [internal/clients/kafka/acl] that the controller calls
    ([Generate], [ConvertToJSON], [ConvertFromJSON], [CompareAcls], [Diff],
    [List], [Create], [Delete]) is an interface here ([acl.Package]); a
    model of it written from the specification is given in [SpecAcl]. *)

From Stdlib Require Import String Ascii ZArith Bool.
From stdpp Require Import base tactics option list strings gmap.

Local Open Scope string_scope.

(** ** Go values *)

(** [github.com/pkg/errors]: [New] builds a fundamental error, [Wrap]
    annotates a cause with a message and is nil on a nil cause. A Go
    [error] is an interface value: [None] is nil. *)
Module errors.

Inductive value : Type :=
| fundamental (msg : string)
| withMessage (cause : value) (msg : string).

Definition error : Type := option value.

Definition New (msg : string) : error := Some (fundamental msg).

Definition Wrap (err : error) (msg : string) : error :=
  match err with
  | None => None
  | Some cause => Some (withMessage cause msg)
  end.

Fixpoint Error (e : value) : string :=
  match e with
  | fundamental msg => msg
  | withMessage cause msg => msg ++ ": " ++ Error cause
  end.

Fixpoint Cause (e : value) : value :=
  match e with
  | fundamental msg => fundamental msg
  | withMessage cause _ => Cause cause
  end.

End errors.

Abbreviation error := errors.error.

(** [strings.Join]. *)
Module strings.

Fixpoint Join (elems : list string) (sep : string) : string :=
  match elems with
  | [] => ""
  | [e] => e
  | e :: rest => e ++ sep ++ Join rest sep
  end.

End strings.

(** ** The constants of the controller *)

Definition errNotAccessControlList : string :=
  "managed resource is not a AccessControlList custom resource".
Definition errTrackPCUsage : string := "cannot track ProviderConfig usage".
Definition errGetPC : string := "cannot get ProviderConfig".
Definition errGetCreds : string := "cannot get credentials".
Definition errListACL : string := "cannot List ACLs".
Definition errNewClient : string := "cannot create new Service".
Definition errUpdateNotSupported : string := "updates are not supported".

(** ** crossplane-runtime: conditions, external name, results *)

Module v1.

Record Condition : Type := {
  Type_ : string;
  Status : string;
  LastTransitionTime : Z;
  Reason : string;
  Message : string
}.

Definition TypeReady : string := "Ready".
Definition ConditionTrue : string := "True".
Definition ConditionUnknown : string := "Unknown".
Definition ReasonAvailable : string := "Available".

(** [Available()], with the reading of the clock made explicit. *)
Definition Available (now : Z) : Condition :=
  {| Type_ := TypeReady; Status := ConditionTrue;
     LastTransitionTime := now; Reason := ReasonAvailable; Message := "" |}.

(** [Condition.Equal] ignores the transition time. *)
Definition Equal (c other : Condition) : bool :=
  String.eqb (Type_ c) (Type_ other) &&
  String.eqb (Status c) (Status other) &&
  String.eqb (Reason c) (Reason other) &&
  String.eqb (Message c) (Message other).

(** The loop of [SetConditions] over the existing conditions for one new
    condition: the rewritten slice and the [exists] flag. *)
Fixpoint set_one (new : Condition) (cs : list Condition)
  : list Condition * bool :=
  match cs with
  | [] => ([], false)
  | existing :: rest =>
      let '(rest', found) := set_one new rest in
      if negb (String.eqb (Type_ existing) (Type_ new)) then
        (existing :: rest', found)
      else if Equal existing new then (existing :: rest', true)
      else (new :: rest', true)
  end.

Fixpoint SetConditions (cs : list Condition) (c : list Condition)
  : list Condition :=
  match c with
  | [] => cs
  | new :: more =>
      let '(cs', found) := set_one new cs in
      SetConditions (if found then cs' else cs' ++ [new]) more
  end.

Fixpoint GetCondition (ct : string) (cs : list Condition) : Condition :=
  match cs with
  | [] => {| Type_ := ct; Status := ConditionUnknown;
             LastTransitionTime := 0; Reason := ""; Message := "" |}
  | c :: rest => if String.eqb (Type_ c) ct then c else GetCondition ct rest
  end.

End v1.

Module meta.

Definition AnnotationKeyExternalName : string := "crossplane.io/external-name".

(** Indexing a Go map at a missing key gives the zero value. *)
Definition GetExternalName (annotations : gmap string string) : string :=
  default "" (annotations !! AnnotationKeyExternalName).

Definition SetExternalName (annotations : gmap string string) (name : string)
  : gmap string string :=
  <[AnnotationKeyExternalName := name]> annotations.

End meta.

Module managed.

Record ExternalObservation : Type := {
  ResourceExists : bool;
  ResourceUpToDate : bool;
  ResourceLateInitialized : bool
}.

Record ExternalCreation : Type := { ExternalNameAssigned : bool }.

Record ExternalUpdate : Type := { }.

(** The zero values [ExternalObservation{}] and [ExternalCreation{}]. *)
Definition ExternalObservation_zero : ExternalObservation :=
  {| ResourceExists := false; ResourceUpToDate := false;
     ResourceLateInitialized := false |}.
Definition ExternalCreation_zero : ExternalCreation :=
  {| ExternalNameAssigned := false |}.
Definition ExternalUpdate_zero : ExternalUpdate := Build_ExternalUpdate.

End managed.

(** ** The package [internal/clients/kafka/acl], as the controller sees it

    [Params] is [v1alpha1.AccessControlListParameters], [ACL] the rule
    descriptor [acl.AccessControlList], [Cluster] the state behind the
    [kadm.Client]. A pointer result that may be nil is an [option];
    [Generate], to which the specification gives no failure mode, always
    returns a descriptor. *)
Module acl.

Class Package (Params ACL Cluster : Type) : Type := {
  Generate : Params -> ACL;
  ConvertToJSON : ACL -> string * error;
  ConvertFromJSON : string -> option ACL * error;
  CompareAcls : ACL -> ACL -> bool;
  Diff : ACL -> ACL -> list string;
  List : Cluster -> ACL -> (option ACL * error) * Cluster;
  Create : Cluster -> ACL -> error * Cluster;
  Delete : Cluster -> ACL -> error * Cluster
}.

End acl.

(** A Go call either returns or panics. *)
Inductive Outcome (A : Type) : Type :=
| Returns (a : A)
| Panics (reason : string).
Arguments Returns {A} a.
Arguments Panics {A} reason.

(** ** The store *)

Section Controller.

Context {Params ACL Cluster : Type} `{P : !acl.Package Params ACL Cluster}.

(** [v1alpha1.AccessControlList], the fields the controller touches. *)
Record AccessControlList : Type := {
  Annotations : gmap string string;
  Spec_ForProvider : Params;
  Status_Conditions : list v1.Condition
}.

(** A [resource.Managed] handle: this kind, or some other one. A handle
    of this kind that holds a nil pointer passes the type assertion of
    each operation like any other of its kind. *)
Inductive Managed : Type :=
| IsAccessControlList (cr : AccessControlList)
| OtherKind (kind : string) (annotations : gmap string string)
| NilAccessControlList.

(** One round trip through the [kadm.Client]. *)
Inductive GatewayCall : Type :=
| CallList (filter : ACL)
| CallCreate (rule : ACL)
| CallDelete (rule : ACL).

Record Store : Type := {
  mg : Managed;
  kafkaClient : Cluster;
  calls : list GatewayCall;
  now : Z
}.

Definition Go (A : Type) : Type := Store -> Outcome A * Store.

Definition ret {A} (a : A) : Go A := fun s => (Returns a, s).

Definition bind {A B} (m : Go A) (k : A -> Go B) : Go B :=
  fun s =>
    match m s with
    | (Returns a, s') => k a s'
    | (Panics r, s') => (Panics r, s')
    end.

Definition panic {A} (reason : string) : Go A := fun s => (Panics reason, s).

Definition nilDereference : string :=
  "runtime error: invalid memory address or nil pointer dereference".

(** [*p] *)
Definition deref {A} (p : option A) : Go A :=
  match p with
  | Some a => ret a
  | None => panic nilDereference
  end.

Definition getManaged : Go Managed := fun s => (Returns (mg s), s).

Definition putResource (cr : AccessControlList) : Go unit :=
  fun s => (Returns tt,
            {| mg := IsAccessControlList cr; kafkaClient := kafkaClient s;
               calls := calls s; now := now s |}).

Definition metav1_Now : Go Z := fun s => (Returns (now s), s).

(** The three gateway entry points, each logging its round trip. *)
Definition gateway_List (filter : ACL) : Go (option ACL * error) :=
  fun s =>
    let '(r, k) := acl.List (kafkaClient s) filter in
    (Returns r, {| mg := mg s; kafkaClient := k;
                   calls := calls s ++ [CallList filter]; now := now s |}).

Definition gateway_Create (rule : ACL) : Go error :=
  fun s =>
    let '(r, k) := acl.Create (kafkaClient s) rule in
    (Returns r, {| mg := mg s; kafkaClient := k;
                   calls := calls s ++ [CallCreate rule]; now := now s |}).

Definition gateway_Delete (rule : ACL) : Go error :=
  fun s =>
    let '(r, k) := acl.Delete (kafkaClient s) rule in
    (Returns r, {| mg := mg s; kafkaClient := k;
                   calls := calls s ++ [CallDelete rule]; now := now s |}).

(** [meta.SetExternalName(cr, name)] and [cr.Status.SetConditions(c)] on
    the object the handle points to. *)
Definition SetExternalName (cr : AccessControlList) (name : string)
  : AccessControlList :=
  {| Annotations := meta.SetExternalName (Annotations cr) name;
     Spec_ForProvider := Spec_ForProvider cr;
     Status_Conditions := Status_Conditions cr |}.

Definition SetConditions (cr : AccessControlList) (c : list v1.Condition)
  : AccessControlList :=
  {| Annotations := Annotations cr;
     Spec_ForProvider := Spec_ForProvider cr;
     Status_Conditions := v1.SetConditions (Status_Conditions cr) c |}.

#[local] Instance Go_ret : MRet Go := @ret.
#[local] Instance Go_bind : MBind Go := fun A B k m => bind m k.

(** ** The four operations of [external] *)

Definition Observe : Go (managed.ExternalObservation * error) :=
  h ← getManaged;
  match h with
  | OtherKind _ _ =>
      ret (managed.ExternalObservation_zero, errors.New errNotAccessControlList)
  | NilAccessControlList => panic nilDereference
  | IsAccessControlList cr =>
      let ext := meta.GetExternalName (Annotations cr) in
      if String.eqb ext "" then
        ret ({| managed.ResourceExists := false;
                managed.ResourceUpToDate := false;
                managed.ResourceLateInitialized := false |}, None)
      else
        let '(extname, _) :=
          acl.ConvertFromJSON (meta.GetExternalName (Annotations cr)) in
        recorded ← deref extname;
        let compare :=
          acl.CompareAcls recorded (acl.Generate (Spec_ForProvider cr)) in
        let diff := acl.Diff recorded (acl.Generate (Spec_ForProvider cr)) in
        if negb compare then
          let err := strings.Join diff " " in
          ret ({| managed.ResourceExists := true;
                  managed.ResourceUpToDate := false;
                  managed.ResourceLateInitialized := false |}, errors.New err)
        else
          '(ae, err) ← gateway_List recorded;
          match err with
          | Some _ =>
              ret (managed.ExternalObservation_zero, errors.Wrap err errListACL)
          | None =>
              match ae with
              | None =>
                  ret ({| managed.ResourceExists := false;
                          managed.ResourceUpToDate := false;
                          managed.ResourceLateInitialized := false |}, None)
              | Some _ =>
                  t ← metav1_Now;
                  _ ← putResource (SetConditions cr [v1.Available t]);
                  ret ({| managed.ResourceExists := true;
                          managed.ResourceUpToDate := true;
                          managed.ResourceLateInitialized := false |}, None)
              end
          end
  end.

Definition Create : Go (managed.ExternalCreation * error) :=
  h ← getManaged;
  match h with
  | OtherKind _ _ =>
      ret (managed.ExternalCreation_zero, errors.New errNotAccessControlList)
  | NilAccessControlList => panic nilDereference
  | IsAccessControlList cr =>
      let generated := acl.Generate (Spec_ForProvider cr) in
      let '(extname, err) := acl.ConvertToJSON generated in
      match err with
      | Some _ =>
          ret (managed.ExternalCreation_zero,
               errors.Wrap err "could not convert external name to JSON")
      | None =>
          if String.eqb (meta.GetExternalName (Annotations cr)) "" then
            _ ← putResource (SetExternalName cr extname);
            e ← gateway_Create generated;
            ret ({| managed.ExternalNameAssigned := true |}, e)
          else
            e ← gateway_Create generated;
            ret (managed.ExternalCreation_zero, e)
      end
  end.

Definition Update : Go (managed.ExternalUpdate * error) :=
  ret (managed.ExternalUpdate_zero, errors.New errUpdateNotSupported).

Definition Delete : Go error :=
  h ← getManaged;
  match h with
  | OtherKind _ _ => ret (errors.New errNotAccessControlList)
  | NilAccessControlList => panic nilDereference
  | IsAccessControlList cr =>
      gateway_Delete (acl.Generate (Spec_ForProvider cr))
  end.

End Controller.

Arguments AccessControlList : clear implicits.
Arguments Managed : clear implicits.
Arguments GatewayCall : clear implicits.
Arguments Store : clear implicits.
Arguments Go : clear implicits.

(** What identifies a handle: its kind, its annotations and, for an
    AccessControlList, its declaration; the status is left out. A nil
    handle has none of them. *)
Definition identity_of {Params : Type} (h : Managed Params)
  : option ((gmap string string * Params) + (string * gmap string string)) :=
  match h with
  | IsAccessControlList cr => Some (inl (Annotations cr, Spec_ForProvider cr))
  | OtherKind kind a => Some (inr (kind, a))
  | NilAccessControlList => None
  end.

(** The operations a scheduler can issue on one store, and the store a
    sequence of them leaves. *)
Inductive Request : Type := DoObserve | DoCreate | DoUpdate | DoDelete.

Definition perform {Params ACL Cluster : Type}
    `{P : !acl.Package Params ACL Cluster}
    (r : Request) (s : Store Params ACL Cluster) : Store Params ACL Cluster :=
  match r with
  | DoObserve => (Observe s).2
  | DoCreate => (Create s).2
  | DoUpdate => (Update s).2
  | DoDelete => (Delete s).2
  end.

Definition perform_all {Params ACL Cluster : Type}
    `{P : !acl.Package Params ACL Cluster}
    (rs : list Request) (s : Store Params ACL Cluster)
  : Store Params ACL Cluster :=
  fold_left (fun s r => perform r s) rs s.

(** The package with the error result of [ConvertFromJSON] blanked, which
    is what the assignment [extname, _ := ...] of [Observe] keeps of it. *)
Definition discard_decoding_error {Params ACL Cluster : Type}
    (P : acl.Package Params ACL Cluster) : acl.Package Params ACL Cluster :=
  {| acl.Generate := acl.Generate;
     acl.ConvertToJSON := acl.ConvertToJSON;
     acl.ConvertFromJSON := fun extname => ((acl.ConvertFromJSON extname).1, None);
     acl.CompareAcls := acl.CompareAcls;
     acl.Diff := acl.Diff;
     acl.List := acl.List;
     acl.Create := acl.Create;
     acl.Delete := acl.Delete |}.

(** ** The connector

    [connectDisconnector] with its [Connect] and [Disconnect]. The
    collaborators it reaches through its fields [kube], [usage] and
    [newServiceFn], and the accessor of the provider-config reference that
    the API types generate, are an interface ([Collaborators]) over the
    state [W] of the API server; every call to one of them is logged. *)

Module xpv1.

(** [Reference] of crossplane-runtime's common API; [Connect] reads its
    name. *)
Record Reference : Type := { Name : string }.

End xpv1.

Module apisv1alpha1.

(** [ProviderConfig], the fields [Connect] reads:
    [pc.Spec.Credentials.Source] and
    [pc.Spec.Credentials.CommonCredentialSelectors]. *)
Record ProviderCredentials (Selectors : Type) : Type := {
  Source : string;
  CommonCredentialSelectors : Selectors
}.
Arguments Source {Selectors} _.
Arguments CommonCredentialSelectors {Selectors} _.

Record ProviderConfig (Selectors : Type) : Type := {
  Spec_Credentials : ProviderCredentials Selectors
}.
Arguments Spec_Credentials {Selectors} _.

End apisv1alpha1.

Class Collaborators (Params W Client Selectors : Type) : Type := {
  (** [cr.GetProviderConfigReference()], a pointer that may be nil *)
  GetProviderConfigReference : AccessControlList Params -> option xpv1.Reference;
  (** [c.usage.Track(ctx, mg)] *)
  usage_Track : W -> Managed Params -> error * W;
  (** [c.kube.Get(ctx, types.NamespacedName{Name: name}, pc)], with the
      object it fills *)
  kube_Get : W -> string -> (apisv1alpha1.ProviderConfig Selectors * error) * W;
  (** [resource.CommonCredentialExtractor(ctx, source, c.kube, selectors)] *)
  CommonCredentialExtractor :
    W -> string -> Selectors -> (list Byte.byte * error) * W;
  (** [c.newServiceFn(ctx, creds, c.kube)] *)
  newServiceFn : W -> list Byte.byte -> (option Client * error) * W;
  (** [client.Close()] *)
  Close : W -> Client -> W
}.

Section Connector.

Context {Params W Client Selectors Logger : Type}
  `{C : !Collaborators Params W Client Selectors}.

(** The fields of [connectDisconnector] that hold data. *)
Record connectDisconnector : Type := {
  log : Logger;
  cachedClient : option Client
}.

(** The struct [external] that [Connect] hands out. *)
Record external : Type := {
  external_kafkaClient : option Client;
  external_log : Logger
}.

(** One call to a collaborator. *)
Inductive Event : Type :=
| EvTrack (handle : Managed Params)
| EvGet (name : string)
| EvExtract (source : string) (selectors : Selectors)
| EvNewService (creds : list Byte.byte)
| EvClose (client : Client).

Record Session : Type := {
  c : connectDisconnector;
  world : W;
  trace : list Event
}.

Definition Conn (A : Type) : Type := Session -> Outcome A * Session.

Definition conn_ret {A} (a : A) : Conn A := fun σ => (Returns a, σ).

Definition conn_bind {A B} (m : Conn A) (k : A -> Conn B) : Conn B :=
  fun σ =>
    match m σ with
    | (Returns a, σ') => k a σ'
    | (Panics r, σ') => (Panics r, σ')
    end.

#[local] Instance Conn_ret : MRet Conn := @conn_ret.
#[local] Instance Conn_bind : MBind Conn := fun A B k m => conn_bind m k.

Definition conn_deref {A} (p : option A) : Conn A :=
  match p with
  | Some a => conn_ret a
  | None => fun σ => (Panics nilDereference, σ)
  end.

Definition call {A} (ev : Event) (f : W -> A * W) : Conn A :=
  fun σ =>
    let '(a, w) := f (world σ) in
    (Returns a, {| c := c σ; world := w; trace := trace σ ++ [ev] |}).

Definition get_log : Conn Logger := fun σ => (Returns (log (c σ)), σ).

Definition get_cachedClient : Conn (option Client) :=
  fun σ => (Returns (cachedClient (c σ)), σ).

Definition set_cachedClient (svc : option Client) : Conn unit :=
  fun σ => (Returns tt,
            {| c := {| log := log (c σ); cachedClient := svc |};
               world := world σ; trace := trace σ |}).

Definition Connect (h : Managed Params) : Conn (option external * error) :=
  match h with
  | OtherKind _ _ => mret (None, errors.New errNotAccessControlList)
  | NilAccessControlList =>
      err ← call (EvTrack h) (fun w => usage_Track w h);
      match err with
      | Some _ => mret (None, errors.Wrap err errTrackPCUsage)
      | None => fun σ => (Panics nilDereference, σ)
      end
  | IsAccessControlList cr =>
      err ← call (EvTrack h) (fun w => usage_Track w h);
      match err with
      | Some _ => mret (None, errors.Wrap err errTrackPCUsage)
      | None =>
          ref ← conn_deref (GetProviderConfigReference cr);
          '(pc, err) ← call (EvGet (xpv1.Name ref))
                            (fun w => kube_Get w (xpv1.Name ref));
          match err with
          | Some _ => mret (None, errors.Wrap err errGetPC)
          | None =>
              let cd := apisv1alpha1.Spec_Credentials pc in
              '(data, err) ←
                call (EvExtract (apisv1alpha1.Source cd)
                                (apisv1alpha1.CommonCredentialSelectors cd))
                     (fun w =>
                        CommonCredentialExtractor w (apisv1alpha1.Source cd)
                          (apisv1alpha1.CommonCredentialSelectors cd));
              match err with
              | Some _ => mret (None, errors.Wrap err errGetCreds)
              | None =>
                  '(svc, err) ← call (EvNewService data)
                                     (fun w => newServiceFn w data);
                  match err with
                  | Some _ => mret (None, errors.Wrap err errNewClient)
                  | None =>
                      _ ← set_cachedClient svc;
                      l ← get_log;
                      mret (Some {| external_kafkaClient := svc;
                                    external_log := l |}, None)
                  end
              end
          end
      end
  end.

Definition Disconnect : Conn error :=
  cached ← get_cachedClient;
  _ ← match cached with
      | Some client => call (EvClose client) (fun w => (tt, Close w client))
      | None => mret tt
      end;
  _ ← set_cachedClient None;
  mret None.

(** The clients closed along a trace, in order. *)
Fixpoint closed (events : list Event) : list Client :=
  match events with
  | [] => []
  | EvClose client :: rest => client :: closed rest
  | _ :: rest => closed rest
  end.

End Connector.

Arguments connectDisconnector : clear implicits.
Arguments external : clear implicits.
Arguments Event : clear implicits.
Arguments Session : clear implicits.

(** ** A model of the package [internal/clients/kafka/acl]

    The bodies of [Generate], [ConvertToJSON], [ConvertFromJSON],
    [CompareAcls], [Diff], [List], [Create] and [Delete] are not part of the
    controller's file; the definitions below follow the specification
    (sections 3, 4.1, 4.2 and 6). *)
Module SpecAcl.

(** Modelled from the spec: the enumerations of the Declared Specification
    (section 3). *)
Inductive Operation : Type :=
| OpRead | OpWrite | OpCreate | OpDelete | OpAlter | OpDescribe
| OpClusterAction | OpDescribeConfigs | OpAlterConfigs | OpIdempotentWrite
| OpAll.

Inductive PermissionType : Type := Allow | Deny.

Inductive ResourceType : Type := Topic | Group | ClusterResource | TransactionalId.

Inductive PatternType : Type := Literal | Prefixed.

(** Modelled from the spec: the Declared Specification
    ([v1alpha1.AccessControlListParameters], section 3). *)
Record AccessControlListParameters : Type := {
  Principal : string;
  Host : string;
  ResourceOperation : Operation;
  ResourcePermissionType : PermissionType;
  ResourceKind : ResourceType;
  ResourceName : string;
  ResourcePatternTypeFilter : PatternType
}.

(** Modelled from the spec: the Rule Descriptor ([acl.AccessControlList],
    section 3): the same seven fields, the enumerations as their canonical
    strings. *)
Record AccessControlList : Type := {
  principal : string;
  host : string;
  operation : string;
  permission : string;
  resourceType : string;
  resourceName : string;
  patternType : string
}.

Inductive Field : Type :=
| FPrincipal | FHost | FOperation | FPermission
| FResourceType | FResourceName | FPatternType.

Definition fields : list Field :=
  [FPrincipal; FHost; FOperation; FPermission;
   FResourceType; FResourceName; FPatternType].

Definition field_name (f : Field) : string :=
  match f with
  | FPrincipal => "principal"
  | FHost => "host"
  | FOperation => "operation"
  | FPermission => "permission"
  | FResourceType => "resourceType"
  | FResourceName => "resourceName"
  | FPatternType => "patternType"
  end.

Definition get (f : Field) (d : AccessControlList) : string :=
  match f with
  | FPrincipal => principal d
  | FHost => host d
  | FOperation => operation d
  | FPermission => permission d
  | FResourceType => resourceType d
  | FResourceName => resourceName d
  | FPatternType => patternType d
  end.

Definition operation_name (o : Operation) : string :=
  match o with
  | OpRead => "Read" | OpWrite => "Write" | OpCreate => "Create"
  | OpDelete => "Delete" | OpAlter => "Alter" | OpDescribe => "Describe"
  | OpClusterAction => "ClusterAction"
  | OpDescribeConfigs => "DescribeConfigs"
  | OpAlterConfigs => "AlterConfigs"
  | OpIdempotentWrite => "IdempotentWrite"
  | OpAll => "All"
  end.

Definition permission_name (p : PermissionType) : string :=
  match p with Allow => "Allow" | Deny => "Deny" end.

Definition resource_type_name (r : ResourceType) : string :=
  match r with
  | Topic => "Topic" | Group => "Group" | ClusterResource => "Cluster"
  | TransactionalId => "TransactionalId"
  end.

Definition pattern_type_name (p : PatternType) : string :=
  match p with Literal => "Literal" | Prefixed => "Prefixed" end.

Definition operations : list Operation :=
  [OpRead; OpWrite; OpCreate; OpDelete; OpAlter; OpDescribe; OpClusterAction;
   OpDescribeConfigs; OpAlterConfigs; OpIdempotentWrite; OpAll].

Definition mem (s : string) (l : list string) : bool :=
  existsb (String.eqb s) l.

(** The enum domain of each field of a descriptor. *)
Definition in_domain (d : AccessControlList) : bool :=
  mem (operation d) (map operation_name operations) &&
  mem (permission d) (map permission_name [Allow; Deny]) &&
  mem (resourceType d)
      (map resource_type_name [Topic; Group; ClusterResource; TransactionalId]) &&
  mem (patternType d) (map pattern_type_name [Literal; Prefixed]).

Definition well_formed (d : AccessControlList) : Prop := in_domain d = true.

(** Modelled from the spec: [Generate] (section 4.1), pure and total; the
    enumerations get their canonical names and an unset host is the
    wildcard. *)
Definition Generate (params : AccessControlListParameters) : AccessControlList :=
  {| principal := Principal params;
     host := if String.eqb (Host params) "" then "*" else Host params;
     operation := operation_name (ResourceOperation params);
     permission := permission_name (ResourcePermissionType params);
     resourceType := resource_type_name (ResourceKind params);
     resourceName := ResourceName params;
     patternType := pattern_type_name (ResourcePatternTypeFilter params) |}.

(** *** The identity token: a JSON object with the seven fields in the
    order of [fields] *)

Definition dquote : ascii := "034"%char.
Definition backslash : ascii := "092"%char.

Definition special (c : ascii) : bool :=
  Ascii.eqb c dquote || Ascii.eqb c backslash.

Fixpoint escape (s : string) : string :=
  match s with
  | EmptyString => EmptyString
  | String c rest =>
      if special c then String backslash (String c (escape rest))
      else String c (escape rest)
  end.

Definition write_string (v rest : string) : string :=
  String dquote (escape v ++ String dquote rest).

Definition write_field (f : Field) (d : AccessControlList) (rest : string)
  : string :=
  write_string (field_name f) (String ":" (write_string (get f d) rest)).

Definition serialize (d : AccessControlList) : string :=
  String "{"
    (write_field FPrincipal d (String ","
    (write_field FHost d (String ","
    (write_field FOperation d (String ","
    (write_field FPermission d (String ","
    (write_field FResourceType d (String ","
    (write_field FResourceName d (String ","
    (write_field FPatternType d "}"))))))))))))).

(** The characters up to the closing quote, escapes undone, and what
    follows the quote. *)
Fixpoint read_chars (s : string) : option (string * string) :=
  match s with
  | EmptyString => None
  | String c rest =>
      if Ascii.eqb c dquote then Some (EmptyString, rest)
      else if Ascii.eqb c backslash then
        match rest with
        | EmptyString => None
        | String c' rest' =>
            if special c' then
              match read_chars rest' with
              | Some (v, after) => Some (String c' v, after)
              | None => None
              end
            else None
        end
      else
        match read_chars rest with
        | Some (v, after) => Some (String c v, after)
        | None => None
        end
  end.

Definition expect (c : ascii) (s : string) : option string :=
  match s with
  | EmptyString => None
  | String c' rest => if Ascii.eqb c' c then Some rest else None
  end.

Definition read_string (s : string) : option (string * string) :=
  s ← expect dquote s; read_chars s.

Definition read_field (f : Field) (s : string) : option (string * string) :=
  '(key, s) ← read_string s;
  if String.eqb key (field_name f) then s ← expect ":" s; read_string s
  else None.

Definition parse (token : string) : option AccessControlList :=
  s ← expect "{" token;
  '(v1, s) ← read_field FPrincipal s; s ← expect "," s;
  '(v2, s) ← read_field FHost s; s ← expect "," s;
  '(v3, s) ← read_field FOperation s; s ← expect "," s;
  '(v4, s) ← read_field FPermission s; s ← expect "," s;
  '(v5, s) ← read_field FResourceType s; s ← expect "," s;
  '(v6, s) ← read_field FResourceName s; s ← expect "," s;
  '(v7, s) ← read_field FPatternType s; s ← expect "}" s;
  if String.eqb s "" then
    Some {| principal := v1; host := v2; operation := v3; permission := v4;
            resourceType := v5; resourceName := v6; patternType := v7 |}
  else None.

Definition EncodingError : errors.value :=
  errors.fundamental "EncodingError: field value outside its enum domain".
Definition DecodingError : errors.value :=
  errors.fundamental "DecodingError: malformed identity token".
Definition RemoteUnavailable : errors.value :=
  errors.fundamental "RemoteUnavailable: gateway round trip failed".

(** Modelled from the spec: [Encode] ([acl.ConvertToJSON], section 4.1), a
    deterministic serialization that fails with EncodingError on a field
    value outside its enum domain. *)
Definition ConvertToJSON (d : AccessControlList) : string * error :=
  if in_domain d then (serialize d, None) else ("", Some EncodingError).

(** Modelled from the spec: [Decode] ([acl.ConvertFromJSON], section 4.1),
    which fails with DecodingError on a token that is not of the codec's
    format; no descriptor comes with the error. *)
Definition ConvertFromJSON (extname : string) : option AccessControlList * error :=
  match parse extname with
  | Some d => (Some d, None)
  | None => (None, Some DecodingError)
  end.

(** Modelled from the spec: [Equal] ([acl.CompareAcls], section 4.2),
    field-wise equality over the full descriptor. *)
Definition CompareAcls (extname observed : AccessControlList) : bool :=
  forallb (fun f => String.eqb (get f extname) (get f observed)) fields.

(** The message for one field, followed by [rest]: the name of the field,
    then the expected and the actual value, each quoted and escaped as in
    the token, so that no value can pass for a further message. *)
Definition write_mismatch (f : Field) (a b : AccessControlList) (rest : string)
  : string :=
  field_name f ++ ": expected "
  ++ write_string (get f a) (", actual " ++ write_string (get f b) rest).

Definition mismatch (f : Field) (a b : AccessControlList) : string :=
  write_mismatch f a b "".

(** Modelled from the spec: [Diff] ([acl.Diff], section 4.2), one message
    per field where the descriptors differ, naming the field, the expected
    value (from the first) and the actual value (from the second). *)
Definition Diff (existing observed : AccessControlList) : list string :=
  map (fun f => mismatch f existing observed)
      (List.filter (fun f => negb (String.eqb (get f existing) (get f observed)))
                   fields).

(** The fields in which two descriptors differ, in the order of
    [fields]. *)
Definition differing (a b : AccessControlList) : list Field :=
  List.filter (fun f => negb (String.eqb (get f a) (get f b))) fields.

(** *** Reading a joined diff back

    The reader of the error text: what is left of [s] after the prefix
    [p], the field a text starts with, and the entries (field, expected,
    actual) of a text made of messages separated by single spaces. *)
Fixpoint strip_prefix (p s : string) : option string :=
  match p with
  | EmptyString => Some s
  | String c p' =>
      match s with
      | EmptyString => None
      | String c' s' => if Ascii.eqb c' c then strip_prefix p' s' else None
      end
  end.

Fixpoint read_field_name (candidates : list Field) (s : string)
  : option (Field * string) :=
  match candidates with
  | [] => None
  | f :: others =>
      match strip_prefix (field_name f ++ ": expected ") s with
      | Some rest => Some (f, rest)
      | None => read_field_name others s
      end
  end.

Fixpoint read_mismatches (fuel : nat) (s : string)
  : option (list (Field * string * string)) :=
  match fuel with
  | O => None
  | S fuel' =>
      '(f, s) ← read_field_name fields s;
      '(e, s) ← read_string s;
      s ← strip_prefix ", actual " s;
      '(a, s) ← read_string s;
      match s with
      | EmptyString => Some [(f, e, a)]
      | String c rest =>
          if Ascii.eqb c " " then
            more ← read_mismatches fuel' rest; Some ((f, e, a) :: more)
          else None
      end
  end.

(** A diff has at most one message per field. *)
Definition read_message (message : string)
  : option (list (Field * string * string)) :=
  read_mismatches (length fields) message.

(** A message names a field when it starts with the field's name and a
    colon. *)
Definition names (message : string) (f : Field) : bool :=
  String.prefix (field_name f ++ ": ") message.

(** Modelled from the spec: the cluster behind the Admin Gateway
    (section 6), the rules it holds and whether a round trip reaches it;
    an unreachable cluster fails every round trip (RemoteUnavailable,
    section 7). *)
Record Cluster : Type := {
  rules : list AccessControlList;
  reachable : bool
}.

(** Modelled from the spec: [List] of the Admin Gateway (section 6), the
    rule matching the filter or not-found. *)
Definition List (k : Cluster) (filter : AccessControlList)
  : (option AccessControlList * error) * Cluster :=
  if reachable k then
    (if existsb (CompareAcls filter) (rules k) then (Some filter, None)
     else (None, None), k)
  else ((None, Some RemoteUnavailable), k).

(** Modelled from the spec: [Create] of the Admin Gateway (section 6),
    idempotent on an exact duplicate. *)
Definition Create (k : Cluster) (rule : AccessControlList) : error * Cluster :=
  if reachable k then
    (None, if existsb (CompareAcls rule) (rules k) then k
           else {| rules := rules k ++ [rule]; reachable := true |})
  else (Some RemoteUnavailable, k).

(** Modelled from the spec: [Delete] of the Admin Gateway (section 6),
    idempotent on absence. *)
Definition Delete (k : Cluster) (rule : AccessControlList) : error * Cluster :=
  if reachable k then
    (None, {| rules := List.filter (fun r => negb (CompareAcls rule r)) (rules k);
              reachable := true |})
  else (Some RemoteUnavailable, k).

#[export] Instance package
  : acl.Package AccessControlListParameters AccessControlList Cluster :=
  {| acl.Generate := Generate;
     acl.ConvertToJSON := ConvertToJSON;
     acl.ConvertFromJSON := ConvertFromJSON;
     acl.CompareAcls := CompareAcls;
     acl.Diff := Diff;
     acl.List := List;
     acl.Create := Create;
     acl.Delete := Delete |}.

(** The same package under a declaration that is already a descriptor and
    is passed on as it is: its enum fields are free strings, so the
    defensive branch of the encoder can be reached. *)
Definition unchecked
  : acl.Package AccessControlList AccessControlList Cluster :=
  {| acl.Generate := fun params => params;
     acl.ConvertToJSON := ConvertToJSON;
     acl.ConvertFromJSON := ConvertFromJSON;
     acl.CompareAcls := CompareAcls;
     acl.Diff := Diff;
     acl.List := List;
     acl.Create := Create;
     acl.Delete := Delete |}.

End SpecAcl.

(** ** The end-to-end scenario of the specification (section 8) *)
Module Scenario.

Definition alice : SpecAcl.AccessControlListParameters :=
  {| SpecAcl.Principal := "User:alice"; SpecAcl.Host := "*";
     SpecAcl.ResourceOperation := SpecAcl.OpRead;
     SpecAcl.ResourcePermissionType := SpecAcl.Allow;
     SpecAcl.ResourceKind := SpecAcl.Topic;
     SpecAcl.ResourceName := "orders";
     SpecAcl.ResourcePatternTypeFilter := SpecAcl.Literal |}.

(** The same declaration with the operation changed to Write. *)
Definition alice_write : SpecAcl.AccessControlListParameters :=
  {| SpecAcl.Principal := "User:alice"; SpecAcl.Host := "*";
     SpecAcl.ResourceOperation := SpecAcl.OpWrite;
     SpecAcl.ResourcePermissionType := SpecAcl.Allow;
     SpecAcl.ResourceKind := SpecAcl.Topic;
     SpecAcl.ResourceName := "orders";
     SpecAcl.ResourcePatternTypeFilter := SpecAcl.Literal |}.

Definition token : string := SpecAcl.serialize (SpecAcl.Generate alice).

Definition unbound : AccessControlList SpecAcl.AccessControlListParameters :=
  {| Annotations := ∅; Spec_ForProvider := alice; Status_Conditions := [] |}.

Definition bound (name : string) (params : SpecAcl.AccessControlListParameters)
  : AccessControlList SpecAcl.AccessControlListParameters :=
  {| Annotations := {[ meta.AnnotationKeyExternalName := name ]};
     Spec_ForProvider := params; Status_Conditions := [] |}.

Definition empty_cluster : SpecAcl.Cluster :=
  {| SpecAcl.rules := []; SpecAcl.reachable := true |}.

Definition cluster_with_rule : SpecAcl.Cluster :=
  {| SpecAcl.rules := [SpecAcl.Generate alice]; SpecAcl.reachable := true |}.

Definition store {Params : Type} (h : Managed Params) (k : SpecAcl.Cluster)
  : Store Params SpecAcl.AccessControlList SpecAcl.Cluster :=
  {| mg := h; kafkaClient := k; calls := []; now := 1700000000 |}.

(** A handle of another kind, and a token that is no JSON object. *)
Definition topic_handle : Managed SpecAcl.AccessControlListParameters :=
  OtherKind "Topic" ∅.

Definition malformed : string := "orders-read".

(** A declaration whose operation is outside the enumeration, for the
    package that passes declarations on unchecked. *)
Definition shout : SpecAcl.AccessControlList :=
  {| SpecAcl.principal := "User:alice"; SpecAcl.host := "*";
     SpecAcl.operation := "Shout"; SpecAcl.permission := "Allow";
     SpecAcl.resourceType := "Topic"; SpecAcl.resourceName := "orders";
     SpecAcl.patternType := "Literal" |}.

Definition unchecked_resource : AccessControlList SpecAcl.AccessControlList :=
  {| Annotations := ∅; Spec_ForProvider := shout; Status_Conditions := [] |}.

(** The text of the drift error when the operation went from Read to
    Write, the two values in quotes. *)
Definition quoted (v : string) : string :=
  String SpecAcl.dquote (v ++ String SpecAcl.dquote "").

Definition operation_drift : string :=
  "operation: expected " ++ quoted "Read" ++ ", actual " ++ quoted "Write".

(** A declaration that differs from [alice] in two fields. *)
Definition bob_write : SpecAcl.AccessControlListParameters :=
  {| SpecAcl.Principal := "User:bob"; SpecAcl.Host := "*";
     SpecAcl.ResourceOperation := SpecAcl.OpWrite;
     SpecAcl.ResourcePermissionType := SpecAcl.Allow;
     SpecAcl.ResourceKind := SpecAcl.Topic;
     SpecAcl.ResourceName := "orders";
     SpecAcl.ResourcePatternTypeFilter := SpecAcl.Literal |}.

End Scenario.

(** ** Stand-ins for the collaborators of the connector *)
Module Fixture.

Definition creds : list Byte.byte := [Byte.x73; Byte.x33; Byte.x63].

Definition default_config : apisv1alpha1.ProviderConfig unit :=
  {| apisv1alpha1.Spec_Credentials :=
       {| apisv1alpha1.Source := "Secret";
          apisv1alpha1.CommonCredentialSelectors := tt |} |}.

Definition zero_config : apisv1alpha1.ProviderConfig unit :=
  {| apisv1alpha1.Spec_Credentials :=
       {| apisv1alpha1.Source := "";
          apisv1alpha1.CommonCredentialSelectors := tt |} |}.

(** An API server that knows the provider config "default" only; clients
    are numbered as they are made, the state being the next number. *)
Definition collaborators (ref : option xpv1.Reference)
  : Collaborators SpecAcl.AccessControlListParameters nat nat unit :=
  {| GetProviderConfigReference := fun _ => ref;
     usage_Track := fun w _ => (None, w);
     kube_Get := fun w name =>
       if String.eqb name "default" then ((default_config, None), w)
       else ((zero_config, Some (errors.fundamental "not found")), w);
     CommonCredentialExtractor := fun w _ _ => ((creds, None), w);
     newServiceFn := fun w _ => ((Some w, None), S w);
     Close := fun w _ => w |}.

Definition default_ref : option xpv1.Reference :=
  Some {| xpv1.Name := "default" |}.

Definition missing_ref : option xpv1.Reference :=
  Some {| xpv1.Name := "staging" |}.

Definition session : Session SpecAcl.AccessControlListParameters nat nat unit string :=
  {| c := {| log := "acl"; cachedClient := None |}; world := 0; trace := [] |}.

(** A session that still caches client 7. *)
Definition busy_session
  : Session SpecAcl.AccessControlListParameters nat nat unit string :=
  {| c := {| log := "acl"; cachedClient := Some 7 |}; world := 8; trace := [] |}.


(** A cluster no round trip reaches. *)
Definition unreachable_cluster : SpecAcl.Cluster :=
  {| SpecAcl.rules := []; SpecAcl.reachable := false |}.

End Fixture.

(** * Properties *)

(** ** Conditions *)

Lemma Equal_refl (c : v1.Condition) : v1.Equal c c = true.
Proof. unfold v1.Equal. by rewrite !String.eqb_refl. Qed.

Lemma set_one_GetCondition (new : v1.Condition) (cs : list v1.Condition) :
  v1.Equal
    (v1.GetCondition (v1.Type_ new)
       (let '(cs', found) := v1.set_one new cs in
        if found then cs' else cs' ++ [new]))
    new = true.
Proof.
  induction cs as [|existing rest IH]; simpl.
  - rewrite String.eqb_refl. apply Equal_refl.
  - destruct (v1.set_one new rest) as [rest' found].
    destruct (String.eqb (v1.Type_ existing) (v1.Type_ new)) eqn:Ety; simpl.
    + destruct (v1.Equal existing new) eqn:Eeq; simpl.
      * by rewrite Ety.
      * rewrite String.eqb_refl. apply Equal_refl.
    + destruct found; simpl; by rewrite Ety.
Qed.

Lemma SetConditions_Available (cs : list v1.Condition) (t : Z) :
  v1.Equal (v1.GetCondition v1.TypeReady (v1.SetConditions cs [v1.Available t]))
           (v1.Available t) = true.
Proof.
  pose proof (set_one_GetCondition (v1.Available t) cs) as H.
  simpl. by destruct (v1.set_one (v1.Available t) cs) as [cs' found].
Qed.

(** ** The external name *)

Lemma GetExternalName_SetExternalName (a : gmap string string) (name : string) :
  meta.GetExternalName (meta.SetExternalName a name) = name.
Proof.
  unfold meta.GetExternalName, meta.SetExternalName.
  by rewrite lookup_insert_eq.
Qed.

(** ** The operations, for any implementation of the package *)

(** Unfolds an operation down to the store it returns. *)
Ltac run :=
  unfold Observe, Create, Update, Delete, mbind, Go_bind, bind, getManaged,
    gateway_List, gateway_Create, gateway_Delete, putResource, metav1_Now,
    deref, panic, ret; simpl.

Section ControllerFacts.

Context {Params ACL Cluster : Type} `{P : !acl.Package Params ACL Cluster}.

Implicit Types (s : Store Params ACL Cluster) (cr : AccessControlList Params)
  (d : ACL).


Lemma eqb_empty_false (ext : string) : ext ≠ "" -> String.eqb ext "" = false.
Proof. intros H. by apply String.eqb_neq. Qed.

(** With a token bound, [Observe] looks only at the descriptor that
    [ConvertFromJSON] returns: a nil one makes the dereference panic. *)
Lemma Observe_nil_descriptor s cr (e : error) :
  mg s = IsAccessControlList cr ->
  meta.GetExternalName (Annotations cr) ≠ "" ->
  acl.ConvertFromJSON (meta.GetExternalName (Annotations cr)) = (None, e) ->
  Observe s = (Panics nilDereference, s).
Proof.
  intros Hmg Hext Hdec. run. rewrite Hmg, (eqb_empty_false _ Hext), Hdec.
  reflexivity.
Qed.

(** With a token bound and a descriptor decoded, a failed comparison ends
    the pass with the joined diff as the error. *)
Lemma Observe_not_equal s cr d (e : error) :
  mg s = IsAccessControlList cr ->
  meta.GetExternalName (Annotations cr) ≠ "" ->
  acl.ConvertFromJSON (meta.GetExternalName (Annotations cr)) = (Some d, e) ->
  acl.CompareAcls d (acl.Generate (Spec_ForProvider cr)) = false ->
  Observe s =
    (Returns ({| managed.ResourceExists := true;
                 managed.ResourceUpToDate := false;
                 managed.ResourceLateInitialized := false |},
              errors.New
                (strings.Join
                   (acl.Diff d (acl.Generate (Spec_ForProvider cr))) " ")),
     s).
Proof.
  intros Hmg Hext Hdec Hcmp. run.
  rewrite Hmg, (eqb_empty_false _ Hext), Hdec. simpl. by rewrite Hcmp.
Qed.

(** With a token bound, a descriptor decoded and the comparison passed,
    the pass makes exactly one round trip, the existence query. *)
Lemma Observe_equal s cr d (e : error) :
  mg s = IsAccessControlList cr ->
  meta.GetExternalName (Annotations cr) ≠ "" ->
  acl.ConvertFromJSON (meta.GetExternalName (Annotations cr)) = (Some d, e) ->
  acl.CompareAcls d (acl.Generate (Spec_ForProvider cr)) = true ->
  Observe s =
    let '((ae, err), k) := acl.List (kafkaClient s) d in
    let s' := {| mg := mg s; kafkaClient := k;
                 calls := calls s ++ [CallList d]; now := now s |} in
    match err, ae with
    | Some _, _ =>
        (Returns (managed.ExternalObservation_zero, errors.Wrap err errListACL),
         s')
    | None, None =>
        (Returns ({| managed.ResourceExists := false;
                     managed.ResourceUpToDate := false;
                     managed.ResourceLateInitialized := false |}, None), s')
    | None, Some _ =>
        (Returns ({| managed.ResourceExists := true;
                     managed.ResourceUpToDate := true;
                     managed.ResourceLateInitialized := false |}, None),
         {| mg := IsAccessControlList
                    (SetConditions cr [v1.Available (now s)]);
            kafkaClient := k; calls := calls s ++ [CallList d];
            now := now s |})
    end.
Proof.
  intros Hmg Hext Hdec Hcmp. run.
  rewrite Hmg, (eqb_empty_false _ Hext), Hdec. simpl. rewrite Hcmp. simpl.
  destruct (acl.List (kafkaClient s) d) as [[ae err] k]. rewrite ?Hmg.
  destruct err; [reflexivity|]. destruct ae; reflexivity.
Qed.

(** The error that [ConvertFromJSON] returns never reaches the result of
    [Observe]. *)
Lemma Observe_discards_decoding_error s :
  Observe (P:=P) s = Observe (P:=discard_decoding_error P) s.
Proof.
  run. destruct (mg s) as [cr|kind a|]; [|reflexivity..].
  destruct (String.eqb (meta.GetExternalName (Annotations cr)) "");
    [reflexivity|].
  by destruct (acl.ConvertFromJSON (meta.GetExternalName (Annotations cr))).
Qed.

End ControllerFacts.

(** ** The modelled package: codec and comparator *)

Lemma read_chars_escape (v rest : string) :
  SpecAcl.read_chars (SpecAcl.escape v ++ String SpecAcl.dquote rest)
  = Some (v, rest).
Proof.
  induction v as [|c v IH]; simpl.
  - reflexivity.
  - destruct (SpecAcl.special c) eqn:Hc; simpl.
    + rewrite Hc, IH. reflexivity.
    + unfold SpecAcl.special in Hc. apply orb_false_elim in Hc as [Hq Hb].
      rewrite Hq, Hb, IH. reflexivity.
Qed.

Lemma read_write_string (v rest : string) :
  SpecAcl.read_string (SpecAcl.write_string v rest) = Some (v, rest).
Proof.
  unfold SpecAcl.read_string, SpecAcl.write_string. simpl.
  apply read_chars_escape.
Qed.

Lemma read_write_field (f : SpecAcl.Field) (d : SpecAcl.AccessControlList)
    (rest : string) :
  SpecAcl.read_field f (SpecAcl.write_field f d rest)
  = Some (SpecAcl.get f d, rest).
Proof.
  unfold SpecAcl.read_field, SpecAcl.write_field.
  rewrite read_write_string. simpl. rewrite String.eqb_refl. simpl.
  apply read_write_string.
Qed.

Lemma parse_serialize (d : SpecAcl.AccessControlList) :
  SpecAcl.parse (SpecAcl.serialize d) = Some d.
Proof.
  unfold SpecAcl.parse, SpecAcl.serialize. simpl.
  repeat (rewrite read_write_field; simpl).
  by destruct d.
Qed.

Lemma get_ext (a b : SpecAcl.AccessControlList) :
  (forall f, SpecAcl.get f a = SpecAcl.get f b) -> a = b.
Proof.
  intros H. destruct a, b.
  pose proof (H SpecAcl.FPrincipal). pose proof (H SpecAcl.FHost).
  pose proof (H SpecAcl.FOperation). pose proof (H SpecAcl.FPermission).
  pose proof (H SpecAcl.FResourceType). pose proof (H SpecAcl.FResourceName).
  pose proof (H SpecAcl.FPatternType). simpl in *. congruence.
Qed.

Lemma fields_complete (f : SpecAcl.Field) : In f SpecAcl.fields.
Proof. destruct f; simpl; tauto. Qed.

Lemma CompareAcls_true_iff (a b : SpecAcl.AccessControlList) :
  SpecAcl.CompareAcls a b = true <-> a = b.
Proof.
  unfold SpecAcl.CompareAcls. rewrite forallb_forall. split.
  - intros H. apply get_ext. intros f. apply String.eqb_eq, H, fields_complete.
  - intros -> f _. apply String.eqb_refl.
Qed.

Lemma CompareAcls_false_iff (a b : SpecAcl.AccessControlList) :
  SpecAcl.CompareAcls a b = false <-> a ≠ b.
Proof.
  rewrite <- CompareAcls_true_iff. by destruct (SpecAcl.CompareAcls a b).
Qed.

Lemma names_mismatch (f g : SpecAcl.Field) (a b : SpecAcl.AccessControlList) :
  SpecAcl.names (SpecAcl.mismatch g a b) f = true <-> f = g.
Proof.
  unfold SpecAcl.names, SpecAcl.mismatch.
  destruct f, g; simpl; split; congruence.
Qed.

Lemma Diff_names (a b : SpecAcl.AccessControlList) (f : SpecAcl.Field) :
  (exists m, In m (SpecAcl.Diff a b) /\ SpecAcl.names m f = true)
  <-> SpecAcl.get f a ≠ SpecAcl.get f b.
Proof.
  unfold SpecAcl.Diff. split.
  - intros (m & Hin & Hm). apply in_map_iff in Hin as (g & <- & Hg).
    apply names_mismatch in Hm as ->.
    apply filter_In in Hg as [_ Hg]. apply negb_true_iff in Hg.
    by apply String.eqb_neq.
  - intros Hne. exists (SpecAcl.mismatch f a b). split.
    + apply in_map_iff. exists f. split; [reflexivity|].
      apply filter_In. split; [apply fields_complete|].
      apply negb_true_iff. by apply String.eqb_neq.
    + by apply names_mismatch.
Qed.

(** *** The joined diff read back *)

Lemma append_cons (c : ascii) (x y : string) :
  (String c x ++ y)%string = String c (x ++ y).
Proof. reflexivity. Qed.

Lemma append_nil (y : string) : ("" ++ y)%string = y.
Proof. reflexivity. Qed.

Lemma string_app_assoc (x y z : string) : ((x ++ y) ++ z = x ++ (y ++ z))%string.
Proof.
  induction x as [|c x IH]; [reflexivity|].
  rewrite !append_cons. by f_equal.
Qed.

Lemma strip_prefix_app (p s : string) :
  SpecAcl.strip_prefix p (p ++ s) = Some s.
Proof.
  induction p as [|c p IH]; [reflexivity|].
  rewrite append_cons. simpl. by rewrite Ascii.eqb_refl.
Qed.

Lemma write_string_app (v rest tail : string) :
  (SpecAcl.write_string v rest ++ tail)%string
  = SpecAcl.write_string v (rest ++ tail).
Proof.
  unfold SpecAcl.write_string.
  by rewrite append_cons, string_app_assoc, append_cons.
Qed.

Lemma mismatch_app (f : SpecAcl.Field) (a b : SpecAcl.AccessControlList)
    (tail : string) :
  (SpecAcl.mismatch f a b ++ tail)%string = SpecAcl.write_mismatch f a b tail.
Proof.
  unfold SpecAcl.mismatch, SpecAcl.write_mismatch.
  rewrite !string_app_assoc, write_string_app, string_app_assoc.
  by rewrite write_string_app, append_nil.
Qed.

Lemma read_field_name_write (f : SpecAcl.Field) (rest : string) :
  SpecAcl.read_field_name SpecAcl.fields
    (SpecAcl.field_name f ++ ": expected " ++ rest)
  = Some (f, rest).
Proof. by destruct f. Qed.

(** One message is read back as its entry, and the reader goes on after a
    single space. *)
Lemma read_mismatches_step (fuel : nat) (f : SpecAcl.Field)
    (a b : SpecAcl.AccessControlList) (tail : string) :
  SpecAcl.read_mismatches (S fuel) (SpecAcl.write_mismatch f a b tail)
  = match tail with
    | EmptyString => Some [(f, SpecAcl.get f a, SpecAcl.get f b)]
    | String c rest =>
        if Ascii.eqb c " " then
          more ← SpecAcl.read_mismatches fuel rest;
          Some ((f, SpecAcl.get f a, SpecAcl.get f b) :: more)
        else None
    end.
Proof.
  unfold SpecAcl.write_mismatch. cbn [SpecAcl.read_mismatches].
  rewrite read_field_name_write. cbn [mbind option_bind].
  rewrite read_write_string. cbn [mbind option_bind].
  rewrite strip_prefix_app. cbn [mbind option_bind].
  rewrite read_write_string. reflexivity.
Qed.

Lemma read_mismatches_Join (a b : SpecAcl.AccessControlList)
    (fs : list SpecAcl.Field) (fuel : nat) :
  fs ≠ [] ->
  length fs <= fuel ->
  SpecAcl.read_mismatches fuel
    (strings.Join (map (fun f => SpecAcl.mismatch f a b) fs) " ")
  = Some (map (fun f => (f, SpecAcl.get f a, SpecAcl.get f b)) fs).
Proof.
  revert fuel. induction fs as [|f fs IH]; intros fuel Hne Hlen; [done|].
  destruct fuel as [|fuel]; [simpl in Hlen; lia|].
  destruct fs as [|g fs].
  - cbn [map strings.Join]. unfold SpecAcl.mismatch.
    by rewrite read_mismatches_step.
  - change (strings.Join
              (map (fun f => SpecAcl.mismatch f a b) (f :: g :: fs)) " ")
      with (SpecAcl.mismatch f a b
            ++ " " ++ strings.Join
                        (map (fun f => SpecAcl.mismatch f a b) (g :: fs)) " ")%string.
    rewrite mismatch_app, append_cons, append_nil, read_mismatches_step.
    simpl. rewrite IH; [reflexivity | done | simpl in *; lia].
Qed.

Lemma differing_nonempty (a b : SpecAcl.AccessControlList) :
  a ≠ b -> SpecAcl.differing a b ≠ [].
Proof.
  intros Hne Hnil. apply Hne, get_ext. intros f.
  destruct (String.eqb (SpecAcl.get f a) (SpecAcl.get f b)) eqn:E;
    [by apply String.eqb_eq|].
  assert (In f (SpecAcl.differing a b)) as Hin.
  { apply filter_In. split; [apply fields_complete | by rewrite E]. }
  rewrite Hnil in Hin. destruct Hin.
Qed.

(** The text that joins the diff of two different descriptors reads back
    as one entry per differing field, in the order of the fields. *)
Lemma read_message_Diff (a b : SpecAcl.AccessControlList) :
  a ≠ b ->
  SpecAcl.read_message (strings.Join (SpecAcl.Diff a b) " ")
  = Some (map (fun f => (f, SpecAcl.get f a, SpecAcl.get f b))
              (SpecAcl.differing a b)).
Proof.
  intros Hne. unfold SpecAcl.read_message.
  apply (read_mismatches_Join a b (SpecAcl.differing a b)).
  - by apply differing_nonempty.
  - apply filter_length_le.
Qed.

Lemma Equal_fields (c other : v1.Condition) :
  v1.Equal c other = true ->
  v1.Type_ c = v1.Type_ other /\ v1.Status c = v1.Status other
  /\ v1.Reason c = v1.Reason other /\ v1.Message c = v1.Message other.
Proof.
  unfold v1.Equal. rewrite !andb_true_iff, !String.eqb_eq. tauto.
Qed.

Lemma Generate_in_domain (params : SpecAcl.AccessControlListParameters) :
  SpecAcl.in_domain (SpecAcl.Generate params) = true.
Proof.
  destruct params as [p h o pm rt rn pt].
  by destruct o, pm, rt, pt.
Qed.

(** ** The claims that hold for any implementation of the package *)

Section Claims.

Context {Params ACL Cluster : Type} `{P : !acl.Package Params ACL Cluster}.

Implicit Types (s : Store Params ACL Cluster) (cr : AccessControlList Params)
  (d : ACL).

(** C3. For a managed object with no identity token bound (its external
    name is empty), Observe returns exists=false and no error, and leaves
    the store as it was: the log of Admin Gateway round trips gains
    nothing. *)
Theorem Observe_unbound s cr :
  mg s = IsAccessControlList cr ->
  meta.GetExternalName (Annotations cr) = "" ->
  Observe s =
    (Returns ({| managed.ResourceExists := false;
                 managed.ResourceUpToDate := false;
                 managed.ResourceLateInitialized := false |}, None), s)
  /\ calls (Observe s).2 = calls s.
Proof.
  intros Hmg Hext.
  assert (Observe s =
    (Returns ({| managed.ResourceExists := false;
                 managed.ResourceUpToDate := false;
                 managed.ResourceLateInitialized := false |}, None), s)) as H.
  { run. by rewrite Hmg, Hext. }
  split; [exact H | by rewrite H].
Qed.

(** C4. For a managed object with a bound token whose decoded descriptor
    compares equal to the freshly generated one, when the existence query
    of the Admin Gateway reports the rule absent (a nil rule, no error),
    Observe returns exists=false and no error; the query is the only round
    trip and the managed object is untouched. *)
Theorem Observe_absent_remotely s cr d (e : error) (k : Cluster) :
  mg s = IsAccessControlList cr ->
  meta.GetExternalName (Annotations cr) ≠ "" ->
  acl.ConvertFromJSON (meta.GetExternalName (Annotations cr)) = (Some d, e) ->
  acl.CompareAcls d (acl.Generate (Spec_ForProvider cr)) = true ->
  acl.List (kafkaClient s) d = ((None, None), k) ->
  Observe s =
    (Returns ({| managed.ResourceExists := false;
                 managed.ResourceUpToDate := false;
                 managed.ResourceLateInitialized := false |}, None),
     {| mg := IsAccessControlList cr; kafkaClient := k;
        calls := calls s ++ [CallList d]; now := now s |}).
Proof.
  intros Hmg Hext Hdec Hcmp Hlist.
  rewrite (Observe_equal s cr d e Hmg Hext Hdec Hcmp), Hlist, Hmg.
  reflexivity.
Qed.

(** C5. For a managed object with a bound token whose decoded descriptor
    compares equal to the freshly generated one, when the existence query
    of the Admin Gateway reports the rule present, Observe returns
    exists=true and upToDate=true with no error, and the managed object is
    marked as available: afterwards its condition of type "Ready" has
    status "True" and reason "Available" (it equals [Available()]); its
    annotations and its declaration are untouched. *)
Theorem Observe_present s cr d ae (e : error) (k : Cluster) :
  mg s = IsAccessControlList cr ->
  meta.GetExternalName (Annotations cr) ≠ "" ->
  acl.ConvertFromJSON (meta.GetExternalName (Annotations cr)) = (Some d, e) ->
  acl.CompareAcls d (acl.Generate (Spec_ForProvider cr)) = true ->
  acl.List (kafkaClient s) d = ((Some ae, None), k) ->
  exists cr',
    Observe s =
      (Returns ({| managed.ResourceExists := true;
                   managed.ResourceUpToDate := true;
                   managed.ResourceLateInitialized := false |}, None),
       {| mg := IsAccessControlList cr'; kafkaClient := k;
          calls := calls s ++ [CallList d]; now := now s |})
    /\ v1.Equal (v1.GetCondition v1.TypeReady (Status_Conditions cr'))
                (v1.Available (now s)) = true
    /\ Annotations cr' = Annotations cr
    /\ Spec_ForProvider cr' = Spec_ForProvider cr
    /\ v1.Type_ (v1.GetCondition "Ready" (Status_Conditions cr')) = "Ready"
    /\ v1.Status (v1.GetCondition "Ready" (Status_Conditions cr')) = "True"
    /\ v1.Reason (v1.GetCondition "Ready" (Status_Conditions cr'))
       = "Available".
Proof.
  intros Hmg Hext Hdec Hcmp Hlist.
  exists (SetConditions cr [v1.Available (now s)]).
  rewrite (Observe_equal s cr d e Hmg Hext Hdec Hcmp), Hlist.
  pose proof (SetConditions_Available (Status_Conditions cr) (now s)) as Heq.
  destruct (Equal_fields _ _ Heq) as (Hty & Hst & Hre & _).
  repeat split; done.
Qed.

(** C6. Whatever the declaration, the token and the kind of the handle,
    Update returns the error "updates are not supported" and leaves the
    whole store as it was: the managed object, the cluster and the log of
    Admin Gateway round trips. *)
Theorem Update_unsupported s :
  Update s =
    (Returns (managed.ExternalUpdate_zero, errors.New errUpdateNotSupported), s)
  /\ errors.Error (errors.fundamental errUpdateNotSupported)
     = "updates are not supported".
Proof. split; reflexivity. Qed.

(** C7. When the encoding of the generated descriptor succeeds, Create
    reports that a token was assigned exactly when no token was bound
    before; in that case the external name is the encoded token
    afterwards, otherwise the managed object is left as it was; either
    way the descriptor is submitted to the Admin Gateway, once, and the
    gateway's result is Create's error. *)
Theorem Create_binds_once s cr (token : string) :
  mg s = IsAccessControlList cr ->
  acl.ConvertToJSON (acl.Generate (Spec_ForProvider cr)) = (token, None) ->
  exists out cr',
    Create s =
      (Returns (out,
                (acl.Create (kafkaClient s)
                            (acl.Generate (Spec_ForProvider cr))).1),
       {| mg := IsAccessControlList cr';
          kafkaClient :=
            (acl.Create (kafkaClient s)
                        (acl.Generate (Spec_ForProvider cr))).2;
          calls := calls s
                   ++ [CallCreate (acl.Generate (Spec_ForProvider cr))];
          now := now s |})
    /\ (managed.ExternalNameAssigned out = true
        <-> meta.GetExternalName (Annotations cr) = "")
    /\ (meta.GetExternalName (Annotations cr) = "" ->
        meta.GetExternalName (Annotations cr') = token
        /\ Spec_ForProvider cr' = Spec_ForProvider cr
        /\ Status_Conditions cr' = Status_Conditions cr)
    /\ (meta.GetExternalName (Annotations cr) ≠ "" -> cr' = cr).
Proof.
  intros Hmg Henc.
  destruct (String.eqb (meta.GetExternalName (Annotations cr)) "") eqn:Hext.
  - exists {| managed.ExternalNameAssigned := true |}, (SetExternalName cr token).
    apply String.eqb_eq in Hext as Hempty. repeat split; try done.
    + run. rewrite Hmg, Henc, Hext. simpl.
      by destruct (acl.Create (kafkaClient s) _).
    + apply GetExternalName_SetExternalName.
  - exists managed.ExternalCreation_zero, cr.
    apply String.eqb_neq in Hext as Hbound. repeat split; try done.
    run. rewrite Hmg, Henc, Hext. simpl.
    destruct (acl.Create (kafkaClient s) _). simpl. by rewrite Hmg.
Qed.

(** C8. When the encoding of the generated descriptor fails, Create
    returns that error wrapped ("could not convert external name to
    JSON"), binds no token and submits nothing to the Admin Gateway: the
    store is as it was. *)
Theorem Create_encoding_error s cr (token : string) (cause : errors.value) :
  mg s = IsAccessControlList cr ->
  acl.ConvertToJSON (acl.Generate (Spec_ForProvider cr)) = (token, Some cause) ->
  Create s =
    (Returns (managed.ExternalCreation_zero,
              Some (errors.withMessage cause
                      "could not convert external name to JSON")), s)
  /\ errors.Cause (errors.withMessage cause
                     "could not convert external name to JSON")
     = errors.Cause cause.
Proof.
  intros Hmg Henc. split; [|reflexivity].
  run. by rewrite Hmg, Henc.
Qed.

(** C10. For a handle that is not of the AccessControlList kind, Observe,
    Create and Delete each return the error "managed resource is not a
    AccessControlList custom resource" and leave the store as it was (no
    Admin Gateway round trip, no change to the object); Update makes no
    such check and returns its own error for every handle. *)
Theorem kind_check s (kind : string) (annotations : gmap string string) :
  mg s = OtherKind kind annotations ->
  Observe s =
    (Returns (managed.ExternalObservation_zero,
              errors.New errNotAccessControlList), s)
  /\ Create s =
       (Returns (managed.ExternalCreation_zero,
                 errors.New errNotAccessControlList), s)
  /\ Delete s = (Returns (errors.New errNotAccessControlList), s)
  /\ (forall s',
        Update s' =
          (Returns (managed.ExternalUpdate_zero,
                    errors.New errUpdateNotSupported), s'))
  /\ errNotAccessControlList
     = "managed resource is not a AccessControlList custom resource".
Proof.
  intros Hmg. repeat split; run; by rewrite ?Hmg.
Qed.

End Claims.

Lemma Observe_unbound_witness :
  let s := Scenario.store (IsAccessControlList Scenario.unbound)
                          Scenario.empty_cluster in
  Observe (P:=SpecAcl.package) s =
    (Returns ({| managed.ResourceExists := false;
                 managed.ResourceUpToDate := false;
                 managed.ResourceLateInitialized := false |}, None), s)
  /\ calls (Observe (P:=SpecAcl.package) s).2 = calls s.
Proof.
  apply (Observe_unbound (P:=SpecAcl.package)
           (Scenario.store (IsAccessControlList Scenario.unbound)
                           Scenario.empty_cluster)
           Scenario.unbound); reflexivity.
Defined.

Lemma Observe_absent_remotely_witness :
  let cr := Scenario.bound Scenario.token Scenario.alice in
  let s := Scenario.store (IsAccessControlList cr) Scenario.empty_cluster in
  Observe (P:=SpecAcl.package) s =
    (Returns ({| managed.ResourceExists := false;
                 managed.ResourceUpToDate := false;
                 managed.ResourceLateInitialized := false |}, None),
     {| mg := IsAccessControlList cr; kafkaClient := Scenario.empty_cluster;
        calls := [CallList (SpecAcl.Generate Scenario.alice)];
        now := now s |}).
Proof.
  apply (Observe_absent_remotely (P:=SpecAcl.package)
           (Scenario.store
              (IsAccessControlList (Scenario.bound Scenario.token Scenario.alice))
              Scenario.empty_cluster)
           (Scenario.bound Scenario.token Scenario.alice)
           (SpecAcl.Generate Scenario.alice) None Scenario.empty_cluster).
  - reflexivity.
  - vm_compute. discriminate.
  - vm_compute. reflexivity.
  - vm_compute. reflexivity.
  - vm_compute. reflexivity.
Defined.

Lemma Observe_present_witness :
  let cr := Scenario.bound Scenario.token Scenario.alice in
  let s := Scenario.store (IsAccessControlList cr) Scenario.cluster_with_rule in
  exists cr',
    Observe (P:=SpecAcl.package) s =
      (Returns ({| managed.ResourceExists := true;
                   managed.ResourceUpToDate := true;
                   managed.ResourceLateInitialized := false |}, None),
       {| mg := IsAccessControlList cr';
          kafkaClient := Scenario.cluster_with_rule;
          calls := calls s ++ [CallList (SpecAcl.Generate Scenario.alice)];
          now := now s |})
    /\ v1.Equal (v1.GetCondition v1.TypeReady (Status_Conditions cr'))
                (v1.Available (now s)) = true
    /\ Annotations cr' = Annotations cr
    /\ Spec_ForProvider cr' = Spec_ForProvider cr
    /\ v1.Type_ (v1.GetCondition "Ready" (Status_Conditions cr')) = "Ready"
    /\ v1.Status (v1.GetCondition "Ready" (Status_Conditions cr')) = "True"
    /\ v1.Reason (v1.GetCondition "Ready" (Status_Conditions cr'))
       = "Available".
Proof.
  apply (Observe_present (P:=SpecAcl.package)
           (Scenario.store
              (IsAccessControlList (Scenario.bound Scenario.token Scenario.alice))
              Scenario.cluster_with_rule)
           (Scenario.bound Scenario.token Scenario.alice)
           (SpecAcl.Generate Scenario.alice) (SpecAcl.Generate Scenario.alice)
           None Scenario.cluster_with_rule).
  - reflexivity.
  - vm_compute. discriminate.
  - vm_compute. reflexivity.
  - vm_compute. reflexivity.
  - vm_compute. reflexivity.
Defined.

Lemma Create_binds_once_witness :
  let s := Scenario.store (IsAccessControlList Scenario.unbound)
                          Scenario.empty_cluster in
  exists out cr',
    Create (P:=SpecAcl.package) s =
      (Returns (out, (SpecAcl.Create Scenario.empty_cluster
                        (SpecAcl.Generate Scenario.alice)).1),
       {| mg := IsAccessControlList cr';
          kafkaClient := (SpecAcl.Create Scenario.empty_cluster
                            (SpecAcl.Generate Scenario.alice)).2;
          calls := calls s ++ [CallCreate (SpecAcl.Generate Scenario.alice)];
          now := now s |})
    /\ (managed.ExternalNameAssigned out = true
        <-> meta.GetExternalName (Annotations Scenario.unbound) = "")
    /\ (meta.GetExternalName (Annotations Scenario.unbound) = "" ->
        meta.GetExternalName (Annotations cr') = Scenario.token
        /\ Spec_ForProvider cr' = Spec_ForProvider Scenario.unbound
        /\ Status_Conditions cr' = Status_Conditions Scenario.unbound)
    /\ (meta.GetExternalName (Annotations Scenario.unbound) ≠ "" ->
        cr' = Scenario.unbound).
Proof.
  apply (Create_binds_once (P:=SpecAcl.package)
           (Scenario.store (IsAccessControlList Scenario.unbound)
                           Scenario.empty_cluster)
           Scenario.unbound Scenario.token).
  - reflexivity.
  - vm_compute. reflexivity.
Defined.

Lemma Create_encoding_error_witness :
  let s := Scenario.store (IsAccessControlList Scenario.unchecked_resource)
                          Scenario.empty_cluster in
  Create (P:=SpecAcl.unchecked) s =
    (Returns (managed.ExternalCreation_zero,
              Some (errors.withMessage SpecAcl.EncodingError
                      "could not convert external name to JSON")), s)
  /\ errors.Cause (errors.withMessage SpecAcl.EncodingError
                     "could not convert external name to JSON")
     = errors.Cause SpecAcl.EncodingError.
Proof.
  apply (Create_encoding_error (P:=SpecAcl.unchecked)
           (Scenario.store (IsAccessControlList Scenario.unchecked_resource)
                           Scenario.empty_cluster)
           Scenario.unchecked_resource "" SpecAcl.EncodingError).
  - reflexivity.
  - vm_compute. reflexivity.
Defined.

Lemma kind_check_witness :
  let s := Scenario.store Scenario.topic_handle Scenario.empty_cluster in
  Observe (P:=SpecAcl.package) s =
    (Returns (managed.ExternalObservation_zero,
              errors.New errNotAccessControlList), s)
  /\ Create (P:=SpecAcl.package) s =
       (Returns (managed.ExternalCreation_zero,
                 errors.New errNotAccessControlList), s)
  /\ Delete (P:=SpecAcl.package) s
     = (Returns (errors.New errNotAccessControlList), s)
  /\ (forall s' : Store SpecAcl.AccessControlListParameters
                         SpecAcl.AccessControlList SpecAcl.Cluster,
        Update s' =
          (Returns (managed.ExternalUpdate_zero,
                    errors.New errUpdateNotSupported), s'))
  /\ errNotAccessControlList
     = "managed resource is not a AccessControlList custom resource".
Proof.
  apply (kind_check (P:=SpecAcl.package)
           (Scenario.store Scenario.topic_handle Scenario.empty_cluster)
           "Topic" ∅).
  reflexivity.
Defined.

(** ** The claims about the modelled package *)

(** C9. For every well-formed rule descriptor (each enum field inside its
    domain), the encoder produces a token without error and decoding that
    token gives the descriptor back, without error. *)
Theorem ConvertFromJSON_ConvertToJSON (d : SpecAcl.AccessControlList) :
  SpecAcl.well_formed d ->
  exists token,
    SpecAcl.ConvertToJSON d = (token, None)
    /\ SpecAcl.ConvertFromJSON token = (Some d, None).
Proof.
  unfold SpecAcl.well_formed, SpecAcl.ConvertToJSON, SpecAcl.ConvertFromJSON.
  intros ->. exists (SpecAcl.serialize d).
  by rewrite parse_serialize.
Qed.

Lemma ConvertFromJSON_ConvertToJSON_witness :
  SpecAcl.well_formed (SpecAcl.Generate Scenario.alice)
  /\ exists token,
       SpecAcl.ConvertToJSON (SpecAcl.Generate Scenario.alice) = (token, None)
       /\ SpecAcl.ConvertFromJSON token
          = (Some (SpecAcl.Generate Scenario.alice), None).
Proof.
  split.
  - reflexivity.
  - apply (ConvertFromJSON_ConvertToJSON (SpecAcl.Generate Scenario.alice)).
    reflexivity.
Defined.

(** C2. For a managed object with a bound token that decodes to a
    descriptor different from the one generated from the current
    declaration, Observe returns an error, with exists=true and
    upToDate=false, and the store is as it was (no Admin Gateway round
    trip). The text of the error is the diff messages joined by single
    spaces; read back, that text consists of exactly one entry for each
    field in which the two descriptors differ, in the order of the fields,
    giving the field, the recorded value as expected and the generated
    value as actual, and of nothing else. *)
Theorem Observe_drift
    (s : Store SpecAcl.AccessControlListParameters SpecAcl.AccessControlList
               SpecAcl.Cluster)
    (cr : AccessControlList SpecAcl.AccessControlListParameters)
    (d : SpecAcl.AccessControlList) :
  mg s = IsAccessControlList cr ->
  meta.GetExternalName (Annotations cr) ≠ "" ->
  SpecAcl.ConvertFromJSON (meta.GetExternalName (Annotations cr))
  = (Some d, None) ->
  d ≠ SpecAcl.Generate (Spec_ForProvider cr) ->
  let fresh := SpecAcl.Generate (Spec_ForProvider cr) in
  exists e,
    Observe (P:=SpecAcl.package) s =
      (Returns ({| managed.ResourceExists := true;
                   managed.ResourceUpToDate := false;
                   managed.ResourceLateInitialized := false |}, Some e), s)
    /\ errors.Error e = strings.Join (SpecAcl.Diff d fresh) " "
    /\ SpecAcl.read_message (errors.Error e)
       = Some (map (fun f => (f, SpecAcl.get f d, SpecAcl.get f fresh))
                   (SpecAcl.differing d fresh))
    /\ (forall f,
          In f (SpecAcl.differing d fresh)
          <-> SpecAcl.get f d ≠ SpecAcl.get f fresh)
    /\ (forall f,
          (exists m, In m (SpecAcl.Diff d fresh) /\ SpecAcl.names m f = true)
          <-> SpecAcl.get f d ≠ SpecAcl.get f fresh).
Proof.
  intros Hmg Hext Hdec Hne fresh.
  pose proof Hne as Hcmp. apply CompareAcls_false_iff in Hcmp.
  eexists. split; [|split; [|split; [|split]]].
  - apply (Observe_not_equal (P:=SpecAcl.package) s cr d None Hmg Hext Hdec Hcmp).
  - reflexivity.
  - apply read_message_Diff, Hne.
  - intros f. unfold SpecAcl.differing. rewrite filter_In, negb_true_iff.
    rewrite String.eqb_neq. pose proof (fields_complete f). tauto.
  - intros f. apply Diff_names.
Qed.

Lemma Observe_drift_witness :
  let cr := Scenario.bound Scenario.token Scenario.bob_write in
  let s := Scenario.store (IsAccessControlList cr) Scenario.cluster_with_rule in
  let recorded := SpecAcl.Generate Scenario.alice in
  let fresh := SpecAcl.Generate Scenario.bob_write in
  exists e,
    Observe (P:=SpecAcl.package) s =
      (Returns ({| managed.ResourceExists := true;
                   managed.ResourceUpToDate := false;
                   managed.ResourceLateInitialized := false |}, Some e), s)
    /\ errors.Error e = strings.Join (SpecAcl.Diff recorded fresh) " "
    /\ SpecAcl.read_message (errors.Error e)
       = Some (map (fun f => (f, SpecAcl.get f recorded, SpecAcl.get f fresh))
                   (SpecAcl.differing recorded fresh))
    /\ (forall f,
          In f (SpecAcl.differing recorded fresh)
          <-> SpecAcl.get f recorded ≠ SpecAcl.get f fresh)
    /\ (forall f,
          (exists m, In m (SpecAcl.Diff recorded fresh)
                     /\ SpecAcl.names m f = true)
          <-> SpecAcl.get f recorded ≠ SpecAcl.get f fresh).
Proof.
  apply (Observe_drift
           (Scenario.store
              (IsAccessControlList
                 (Scenario.bound Scenario.token Scenario.bob_write))
              Scenario.cluster_with_rule)
           (Scenario.bound Scenario.token Scenario.bob_write)
           (SpecAcl.Generate Scenario.alice)).
  - reflexivity.
  - vm_compute. discriminate.
  - vm_compute. reflexivity.
  - vm_compute. discriminate.
Defined.

(** C1. The claim fails on the code. At a managed object whose bound
    token is malformed, the decoder returns no descriptor and a
    DecodingError; Observe drops that error, goes on to the comparison and
    panics on the nil descriptor instead of returning the error. *)
Theorem Observe_malformed_token :
  let cr := Scenario.bound Scenario.malformed Scenario.alice in
  let s := Scenario.store (IsAccessControlList cr) Scenario.cluster_with_rule in
  SpecAcl.ConvertFromJSON (meta.GetExternalName (Annotations cr))
  = (None, Some SpecAcl.DecodingError)
  /\ Observe (P:=SpecAcl.package) s = (Panics nilDereference, s).
Proof.
  intros cr s.
  assert (SpecAcl.ConvertFromJSON (meta.GetExternalName (Annotations cr))
          = (None, Some SpecAcl.DecodingError)) as Hdec
    by (vm_compute; reflexivity).
  split; [exact Hdec|].
  apply (Observe_nil_descriptor (P:=SpecAcl.package) s cr
           (Some SpecAcl.DecodingError)).
  - reflexivity.
  - vm_compute. discriminate.
  - exact Hdec.
Qed.

(** ** The end-to-end scenario (section 8 of the specification) *)

Example scenario_first_pass :
  let s0 := Scenario.store (IsAccessControlList Scenario.unbound)
                           Scenario.empty_cluster in
  let s1 := (Create (P:=SpecAcl.package) s0).2 in
  (Observe (P:=SpecAcl.package) s0).1
  = Returns ({| managed.ResourceExists := false;
                managed.ResourceUpToDate := false;
                managed.ResourceLateInitialized := false |}, None)
  /\ (Create (P:=SpecAcl.package) s0).1
     = Returns ({| managed.ExternalNameAssigned := true |}, None)
  /\ SpecAcl.rules (kafkaClient s1) = [SpecAcl.Generate Scenario.alice]
  /\ (Observe (P:=SpecAcl.package) s1).1
     = Returns ({| managed.ResourceExists := true;
                   managed.ResourceUpToDate := true;
                   managed.ResourceLateInitialized := false |}, None).
Proof. vm_compute. repeat split. Qed.

Example scenario_operation_changed :
  let cr := Scenario.bound Scenario.token Scenario.alice_write in
  let s := Scenario.store (IsAccessControlList cr) Scenario.cluster_with_rule in
  (Observe (P:=SpecAcl.package) s).1
  = Returns ({| managed.ResourceExists := true;
                managed.ResourceUpToDate := false;
                managed.ResourceLateInitialized := false |},
             errors.New Scenario.operation_drift)
  /\ SpecAcl.read_message Scenario.operation_drift
     = Some [(SpecAcl.FOperation, "Read", "Write")].
Proof. vm_compute. split; reflexivity. Qed.

(** Two fields changed: the text names both, principal first. *)
Example scenario_two_fields_changed :
  let cr := Scenario.bound Scenario.token Scenario.bob_write in
  let s := Scenario.store (IsAccessControlList cr) Scenario.cluster_with_rule in
  let text :=
    ("principal: expected " ++ Scenario.quoted "User:alice"
     ++ ", actual " ++ Scenario.quoted "User:bob" ++ " "
     ++ Scenario.operation_drift)%string in
  (Observe (P:=SpecAcl.package) s).1
  = Returns ({| managed.ResourceExists := true;
                managed.ResourceUpToDate := false;
                managed.ResourceLateInitialized := false |}, errors.New text)
  /\ SpecAcl.read_message text
     = Some [(SpecAcl.FPrincipal, "User:alice", "User:bob");
             (SpecAcl.FOperation, "Read", "Write")].
Proof. vm_compute. split; reflexivity. Qed.

Example scenario_create_twice :
  let s0 := Scenario.store (IsAccessControlList Scenario.unbound)
                           Scenario.empty_cluster in
  let s1 := (Create (P:=SpecAcl.package) s0).2 in
  let s2 := (Create (P:=SpecAcl.package) s1).2 in
  (Create (P:=SpecAcl.package) s1).1
  = Returns (managed.ExternalCreation_zero, None)
  /\ mg s2 = mg s1
  /\ SpecAcl.rules (kafkaClient s2) = [SpecAcl.Generate Scenario.alice].
Proof. vm_compute. repeat split. Qed.

(** * Further properties of the controller *)

(** ** Conditions set twice *)

Lemma Equal_Type (a b : v1.Condition) :
  v1.Equal a b = true -> v1.Type_ a = v1.Type_ b.
Proof.
  unfold v1.Equal. rewrite !andb_true_iff. intros [[[H _] _] _].
  by apply String.eqb_eq.
Qed.

Lemma Equal_trans (a b b' : v1.Condition) :
  v1.Equal a b = true -> v1.Equal b b' = true -> v1.Equal a b' = true.
Proof.
  unfold v1.Equal. rewrite !andb_true_iff, !String.eqb_eq.
  intros [[[-> ->] ->] ->] [[[-> ->] ->] ->]. done.
Qed.

(** Setting a condition again, in a form [Equal] to the first, rewrites
    nothing. *)
Lemma set_one_again (new new' : v1.Condition) (cs : list v1.Condition) :
  v1.Equal new new' = true ->
  v1.set_one new' (v1.set_one new cs).1 = v1.set_one new cs.
Proof.
  intros Heq. pose proof (Equal_Type _ _ Heq) as Hty.
  induction cs as [|existing rest IH]; simpl; [reflexivity|].
  destruct (v1.set_one new rest) as [rest' found]. simpl in IH.
  destruct (String.eqb (v1.Type_ existing) (v1.Type_ new)) eqn:Ety; simpl.
  - destruct (v1.Equal existing new) eqn:Ee; simpl; rewrite IH.
    + rewrite <- Hty, Ety. simpl. by rewrite (Equal_trans _ _ _ Ee Heq).
    + rewrite <- Hty, String.eqb_refl. simpl. by rewrite Heq.
  - rewrite IH, <- Hty, Ety. reflexivity.
Qed.

Lemma set_one_appended (new new' : v1.Condition) (cs : list v1.Condition) :
  v1.Equal new new' = true ->
  v1.set_one new' cs = (cs, false) ->
  v1.set_one new' (cs ++ [new])%list = ((cs ++ [new])%list, true).
Proof.
  intros Heq. pose proof (Equal_Type _ _ Heq) as Hty.
  induction cs as [|existing rest IH]; simpl.
  - intros _. by rewrite Hty, String.eqb_refl, Heq.
  - destruct (v1.set_one new' rest) as [rest' found] eqn:Erest.
    destruct (String.eqb (v1.Type_ existing) (v1.Type_ new')); simpl.
    + destruct (v1.Equal existing new'); intros [=].
    + intros [= -> ->]. by rewrite IH.
Qed.

Lemma SetConditions_again (new new' : v1.Condition) (cs : list v1.Condition) :
  v1.Equal new new' = true ->
  v1.SetConditions (v1.SetConditions cs [new]) [new']
  = v1.SetConditions cs [new].
Proof.
  intros Heq. simpl.
  pose proof (set_one_again new new' cs Heq) as Hagain.
  destruct (v1.set_one new cs) as [cs' found]. simpl in Hagain.
  destruct found.
  - by rewrite Hagain.
  - by rewrite (set_one_appended new new' cs' Heq Hagain).
Qed.

(** ** Observe, Create and Delete, for any implementation of the package *)

Section ControllerExtras.

Context {Params ACL Cluster : Type} `{P : !acl.Package Params ACL Cluster}.

Implicit Types (s : Store Params ACL Cluster) (cr : AccessControlList Params)
  (d : ACL).

(** X1. With a token bound and the comparison passed, an error from the
    existence query ends Observe with the zero observation and that error
    wrapped as "cannot List ACLs: <cause>", whatever rule came with it; the
    managed object is as before and the query is the only round trip. *)
Theorem Observe_gateway_failure s cr d (e : error) ae (cause : errors.value)
    (k : Cluster) :
  mg s = IsAccessControlList cr ->
  meta.GetExternalName (Annotations cr) ≠ "" ->
  acl.ConvertFromJSON (meta.GetExternalName (Annotations cr)) = (Some d, e) ->
  acl.CompareAcls d (acl.Generate (Spec_ForProvider cr)) = true ->
  acl.List (kafkaClient s) d = ((ae, Some cause), k) ->
  Observe s =
    (Returns (managed.ExternalObservation_zero,
              Some (errors.withMessage cause errListACL)),
     {| mg := IsAccessControlList cr; kafkaClient := k;
        calls := calls s ++ [CallList d]; now := now s |})
  /\ errors.Error (errors.withMessage cause errListACL)
     = "cannot List ACLs: " ++ errors.Error cause.
Proof.
  intros Hmg Hext Hdec Hcmp Hlist. split; [|reflexivity].
  rewrite (Observe_equal s cr d e Hmg Hext Hdec Hcmp), Hlist, Hmg.
  reflexivity.
Qed.


Lemma Observe_writes s :
  identity_of (mg (Observe s).2) = identity_of (mg s)
  /\ now (Observe s).2 = now s
  /\ ((calls (Observe s).2 = calls s
       /\ kafkaClient (Observe s).2 = kafkaClient s)
      \/ exists d,
           calls (Observe s).2 = (calls s ++ [CallList d])%list
           /\ kafkaClient (Observe s).2 = (acl.List (kafkaClient s) d).2).
Proof.
  destruct (mg s) as [cr|kind a|] eqn:Hmg;
    [| | assert (Observe s = (Panics nilDereference, s))
           as -> by (run; by rewrite Hmg);
         simpl; rewrite ?Hmg; auto].
  - destruct (String.eqb (meta.GetExternalName (Annotations cr)) "") eqn:Hext.
    + assert (Observe s = (Returns (managed.ExternalObservation_zero, None), s))
        as -> by (run; by rewrite Hmg, Hext).
      simpl. rewrite ?Hmg. auto.
    + apply String.eqb_neq in Hext.
      destruct (acl.ConvertFromJSON (meta.GetExternalName (Annotations cr)))
        as [[d|] e] eqn:Hdec.
      * destruct (acl.CompareAcls d (acl.Generate (Spec_ForProvider cr)))
          eqn:Hcmp.
        -- rewrite (Observe_equal s cr d e Hmg Hext Hdec Hcmp).
           destruct (acl.List (kafkaClient s) d) as [[[ae|] [err|]] k] eqn:Hl;
             simpl; rewrite ?Hmg; simpl; repeat split; right; exists d;
             by rewrite Hl.
        -- rewrite (Observe_not_equal s cr d e Hmg Hext Hdec Hcmp).
           simpl. rewrite ?Hmg. auto.
      * rewrite (Observe_nil_descriptor s cr e Hmg Hext Hdec).
        simpl. rewrite ?Hmg. auto.
  - assert (Observe s =
            (Returns (managed.ExternalObservation_zero,
                      errors.New errNotAccessControlList), s))
      as -> by (run; by rewrite Hmg).
    simpl. rewrite ?Hmg. auto.
Qed.

(** X3. Observe never writes the identity of the handle (kind,
    annotations, declaration) nor the clock, and never submits a creation
    or a deletion: either it makes no round trip and the cluster is
    untouched, or its one round trip is an existence query. *)
Theorem Observe_frame s :
  identity_of (mg (Observe s).2) = identity_of (mg s)
  /\ now (Observe s).2 = now s
  /\ ((calls (Observe s).2 = calls s
       /\ kafkaClient (Observe s).2 = kafkaClient s)
      \/ exists d,
           calls (Observe s).2 = (calls s ++ [CallList d])%list
           /\ kafkaClient (Observe s).2 = (acl.List (kafkaClient s) d).2).
Proof. apply Observe_writes. Qed.

(** X4. For an AccessControlList handle, Delete submits the descriptor
    generated from the current declaration to the Admin Gateway, once,
    whether or not a token is bound and whatever it holds; it returns the
    gateway's error as it is (not wrapped) and leaves the managed object
    as it was. *)
Theorem Delete_submits_declared s cr :
  mg s = IsAccessControlList cr ->
  Delete s =
    (Returns (acl.Delete (kafkaClient s)
                (acl.Generate (Spec_ForProvider cr))).1,
     {| mg := IsAccessControlList cr;
        kafkaClient := (acl.Delete (kafkaClient s)
                          (acl.Generate (Spec_ForProvider cr))).2;
        calls := calls s ++ [CallDelete (acl.Generate (Spec_ForProvider cr))];
        now := now s |}).
Proof.
  intros Hmg. run. rewrite Hmg.
  destruct (acl.Delete (kafkaClient s) _). simpl. by rewrite Hmg.
Qed.

(** The store after a Create that found no token bound and encoded one. *)
Lemma Create_unbound s cr (token : string) :
  mg s = IsAccessControlList cr ->
  meta.GetExternalName (Annotations cr) = "" ->
  acl.ConvertToJSON (acl.Generate (Spec_ForProvider cr)) = (token, None) ->
  Create s =
    (Returns ({| managed.ExternalNameAssigned := true |},
              (acl.Create (kafkaClient s)
                 (acl.Generate (Spec_ForProvider cr))).1),
     {| mg := IsAccessControlList (SetExternalName cr token);
        kafkaClient := (acl.Create (kafkaClient s)
                          (acl.Generate (Spec_ForProvider cr))).2;
        calls := calls s ++ [CallCreate (acl.Generate (Spec_ForProvider cr))];
        now := now s |}).
Proof.
  intros Hmg Hext Henc. run. rewrite Hmg, Henc, Hext. simpl.
  by destruct (acl.Create (kafkaClient s) _).
Qed.

(** The store after a Create that found a token bound. *)
Lemma Create_bound s cr (token : string) :
  mg s = IsAccessControlList cr ->
  meta.GetExternalName (Annotations cr) ≠ "" ->
  acl.ConvertToJSON (acl.Generate (Spec_ForProvider cr)) = (token, None) ->
  Create s =
    (Returns (managed.ExternalCreation_zero,
              (acl.Create (kafkaClient s)
                 (acl.Generate (Spec_ForProvider cr))).1),
     {| mg := IsAccessControlList cr;
        kafkaClient := (acl.Create (kafkaClient s)
                          (acl.Generate (Spec_ForProvider cr))).2;
        calls := calls s ++ [CallCreate (acl.Generate (Spec_ForProvider cr))];
        now := now s |}).
Proof.
  intros Hmg Hext Henc. run.
  rewrite Hmg, Henc, (eqb_empty_false _ Hext). simpl.
  destruct (acl.Create (kafkaClient s) _). simpl. by rewrite Hmg.
Qed.

(** X5. Create, then Observe. When Create binds a non-empty token that
    the decoder reads back as a descriptor comparing equal to the generated
    one, the next Observe takes the bound path: it queries the cluster
    that Create left for that descriptor and reports what the query
    reports, the two round trips being the creation and the query. This
    holds also when the creation itself failed, the token being bound
    before the gateway is called. *)
Theorem Create_then_Observe s cr (token : string) d (e : error) :
  mg s = IsAccessControlList cr ->
  meta.GetExternalName (Annotations cr) = "" ->
  acl.ConvertToJSON (acl.Generate (Spec_ForProvider cr)) = (token, None) ->
  token ≠ "" ->
  acl.ConvertFromJSON token = (Some d, e) ->
  acl.CompareAcls d (acl.Generate (Spec_ForProvider cr)) = true ->
  let created :=
    (acl.Create (kafkaClient s) (acl.Generate (Spec_ForProvider cr))).2 in
  (Observe (Create s).2).1 =
    match (acl.List created d).1 with
    | (_, Some cause) =>
        Returns (managed.ExternalObservation_zero,
                 Some (errors.withMessage cause errListACL))
    | (None, None) =>
        Returns ({| managed.ResourceExists := false;
                    managed.ResourceUpToDate := false;
                    managed.ResourceLateInitialized := false |}, None)
    | (Some _, None) =>
        Returns ({| managed.ResourceExists := true;
                    managed.ResourceUpToDate := true;
                    managed.ResourceLateInitialized := false |}, None)
    end
  /\ calls (Observe (Create s).2).2
     = (calls s
        ++ [CallCreate (acl.Generate (Spec_ForProvider cr)); CallList d])%list.
Proof.
  intros Hmg Hext Henc Htok Hdec Hcmp created.
  rewrite (Create_unbound s cr token Hmg Hext Henc). simpl.
  match goal with |- context [Observe ?x] => set (s1 := x) end.
  assert (meta.GetExternalName (Annotations (SetExternalName cr token)) = token)
    as Hname by apply GetExternalName_SetExternalName.
  rewrite (Observe_equal s1 (SetExternalName cr token) d e eq_refl);
    rewrite ?Hname; try done.
  subst s1 created. simpl.
  destruct (acl.List _ d) as [[[ae|] [err|]] k]; simpl;
    by rewrite <- app_assoc.
Qed.

(** X6. Create twice. After a Create that bound a non-empty token, a
    second Create assigns nothing, leaves the managed object (token
    included) as the first left it, and submits the same descriptor to the
    Admin Gateway again. *)
Theorem Create_twice s cr (token : string) :
  mg s = IsAccessControlList cr ->
  meta.GetExternalName (Annotations cr) = "" ->
  acl.ConvertToJSON (acl.Generate (Spec_ForProvider cr)) = (token, None) ->
  token ≠ "" ->
  let generated := acl.Generate (Spec_ForProvider cr) in
  let created := (acl.Create (kafkaClient s) generated).2 in
  Create (Create s).2 =
    (Returns (managed.ExternalCreation_zero, (acl.Create created generated).1),
     {| mg := mg (Create s).2;
        kafkaClient := (acl.Create created generated).2;
        calls := calls s ++ [CallCreate generated; CallCreate generated];
        now := now s |})
  /\ mg (Create s).2 = IsAccessControlList (SetExternalName cr token).
Proof.
  intros Hmg Hext Henc Htok generated created.
  rewrite (Create_unbound s cr token Hmg Hext Henc). simpl.
  split; [|reflexivity].
  match goal with |- context [Create ?x] => set (s1 := x) end.
  rewrite (Create_bound s1 (SetExternalName cr token) token eq_refl).
  - subst s1 created generated. simpl. by rewrite <- app_assoc.
  - simpl. by rewrite GetExternalName_SetExternalName.
  - exact Henc.
Qed.

(** X7. Observe twice. After an Observe that found the rule present, a
    further Observe that finds it present again, at whatever time, returns
    the same observation and leaves the managed object exactly as the
    first left it: the Available condition is not written anew and keeps
    its transition time. *)
Theorem Observe_twice s cr d ae ae' (e : error) (k k' : Cluster) (later : Z) :
  mg s = IsAccessControlList cr ->
  meta.GetExternalName (Annotations cr) ≠ "" ->
  acl.ConvertFromJSON (meta.GetExternalName (Annotations cr)) = (Some d, e) ->
  acl.CompareAcls d (acl.Generate (Spec_ForProvider cr)) = true ->
  acl.List (kafkaClient s) d = ((Some ae, None), k) ->
  acl.List k d = ((Some ae', None), k') ->
  let s1 := (Observe s).2 in
  let s1_later := {| mg := mg s1; kafkaClient := kafkaClient s1;
                     calls := calls s1; now := later |} in
  (Observe s1_later).1 = (Observe s).1
  /\ mg (Observe s1_later).2 = mg s1.
Proof.
  intros Hmg Hext Hdec Hcmp Hl Hl'.
  rewrite (Observe_equal s cr d e Hmg Hext Hdec Hcmp), Hl. simpl.
  set (cr1 := SetConditions cr [v1.Available (now s)]).
  match goal with |- context [Observe ?x] => set (s1 := x) end.
  rewrite (Observe_equal s1 cr1 d e eq_refl Hext Hdec Hcmp).
  subst s1. simpl. rewrite Hl'. simpl. split; [reflexivity|].
  f_equal. subst cr1. unfold SetConditions.
  cbn [Annotations Spec_ForProvider Status_Conditions]. f_equal.
  apply (SetConditions_again (v1.Available (now s)) (v1.Available later)).
  reflexivity.
Qed.

End ControllerExtras.

(** ** The connector *)

Ltac conn :=
  unfold Connect, Disconnect, mbind, mret, Conn_bind, Conn_ret, conn_bind,
    conn_ret, call, conn_deref, set_cachedClient, get_log, get_cachedClient;
  simpl.

Section ConnectorFacts.

Context {Params W Client Selectors Logger : Type}
  `{C : !Collaborators Params W Client Selectors}.

Implicit Types (σ : Session Params W Client Selectors Logger)
  (h : Managed Params) (cr : AccessControlList Params).

Lemma closed_app (l l' : list (Event Params Client Selectors)) :
  closed (l ++ l') = (closed l ++ closed l')%list.
Proof.
  induction l as [|ev l IH]; simpl; [reflexivity|].
  destruct ev; simpl; by rewrite IH.
Qed.

(** Splits [Connect] along the results of its collaborators. *)
Ltac connect_cases h σ :=
  conn;
  destruct h as [cr|kind a|]; simpl;
  [ destruct (usage_Track (world σ) (IsAccessControlList cr))
      as [[cause1|] w1] eqn:Htrack; simpl;
    [ | destruct (GetProviderConfigReference cr) as [ref|] eqn:Href; simpl;
        [ destruct (kube_Get w1 (xpv1.Name ref))
            as [[pc [cause2|]] w2] eqn:Hget; simpl;
          [ | destruct (CommonCredentialExtractor w2
                          (apisv1alpha1.Source (apisv1alpha1.Spec_Credentials pc))
                          (apisv1alpha1.CommonCredentialSelectors
                             (apisv1alpha1.Spec_Credentials pc)))
                as [[data [cause3|]] w3] eqn:Hcreds; simpl;
              [ | destruct (newServiceFn w3 data)
                    as [[svc [cause4|]] w4] eqn:Hnew; simpl ] ]
        | ] ]
  |
  | destruct (usage_Track (world σ) NilAccessControlList)
      as [[cause1|] w1] eqn:Htrack; simpl ].

(** X9. When every collaborator succeeds, Connect calls them in the order
    Track, Get (of the referenced provider config), credential extraction
    (with the source and selectors of that config), newServiceFn (with the
    extracted credentials), each once; it caches the client that
    newServiceFn returned and hands out an [external] holding that same
    client and the connector's logger. *)
Theorem Connect_success h σ cr ref pc data svc (w1 w2 w3 w4 : W) :
  h = IsAccessControlList cr ->
  usage_Track (world σ) h = (None, w1) ->
  GetProviderConfigReference cr = Some ref ->
  kube_Get w1 (xpv1.Name ref) = ((pc, None), w2) ->
  CommonCredentialExtractor w2
    (apisv1alpha1.Source (apisv1alpha1.Spec_Credentials pc))
    (apisv1alpha1.CommonCredentialSelectors (apisv1alpha1.Spec_Credentials pc))
  = ((data, None), w3) ->
  newServiceFn w3 data = ((svc, None), w4) ->
  Connect h σ =
    (Returns (Some {| external_kafkaClient := svc;
                      external_log := log (c σ) |}, None),
     {| c := {| log := log (c σ); cachedClient := svc |};
        world := w4;
        trace := trace σ
                 ++ [EvTrack h; EvGet (xpv1.Name ref);
                     EvExtract
                       (apisv1alpha1.Source (apisv1alpha1.Spec_Credentials pc))
                       (apisv1alpha1.CommonCredentialSelectors
                          (apisv1alpha1.Spec_Credentials pc));
                     EvNewService data] |}).
Proof.
  intros -> Htrack Href Hget Hcreds Hnew. conn.
  rewrite Htrack, Href. simpl. rewrite Hget. simpl. rewrite Hcreds. simpl.
  rewrite Hnew. simpl. by rewrite <- !app_assoc.
Qed.

(** X10. Whenever Connect returns an error, it hands out no client and
    leaves the connector (its cached client included) as it was. The
    error is the kind error, with no collaborator called; or it is the
    error that the first failing collaborator returned, wrapped in that
    step's message, every collaborator before it having succeeded on the
    arguments Connect derives for it, and exactly the calls up to that
    step having been made. *)
Theorem Connect_failure h σ ext (e : errors.value) σ' :
  Connect h σ = (Returns (ext, Some e), σ') ->
  ext = None
  /\ c σ' = c σ
  /\ ((e = errors.fundamental errNotAccessControlList
       /\ (exists kind a, h = OtherKind kind a) /\ σ' = σ)
      \/ (exists cause w1,
            usage_Track (world σ) h = (Some cause, w1)
            /\ e = errors.withMessage cause errTrackPCUsage
            /\ world σ' = w1
            /\ trace σ' = (trace σ ++ [EvTrack h])%list)
      \/ (exists cr ref w1 pc cause w2,
            h = IsAccessControlList cr
            /\ usage_Track (world σ) h = (None, w1)
            /\ GetProviderConfigReference cr = Some ref
            /\ kube_Get w1 (xpv1.Name ref) = ((pc, Some cause), w2)
            /\ e = errors.withMessage cause errGetPC
            /\ world σ' = w2
            /\ trace σ' = (trace σ ++ [EvTrack h; EvGet (xpv1.Name ref)])%list)
      \/ (exists cr ref w1 pc w2 data cause w3,
            h = IsAccessControlList cr
            /\ usage_Track (world σ) h = (None, w1)
            /\ GetProviderConfigReference cr = Some ref
            /\ kube_Get w1 (xpv1.Name ref) = ((pc, None), w2)
            /\ CommonCredentialExtractor w2
                 (apisv1alpha1.Source (apisv1alpha1.Spec_Credentials pc))
                 (apisv1alpha1.CommonCredentialSelectors
                    (apisv1alpha1.Spec_Credentials pc))
               = ((data, Some cause), w3)
            /\ e = errors.withMessage cause errGetCreds
            /\ world σ' = w3
            /\ trace σ'
               = (trace σ
                  ++ [EvTrack h; EvGet (xpv1.Name ref);
                      EvExtract
                        (apisv1alpha1.Source (apisv1alpha1.Spec_Credentials pc))
                        (apisv1alpha1.CommonCredentialSelectors
                           (apisv1alpha1.Spec_Credentials pc))])%list)
      \/ (exists cr ref w1 pc w2 data w3 svc cause w4,
            h = IsAccessControlList cr
            /\ usage_Track (world σ) h = (None, w1)
            /\ GetProviderConfigReference cr = Some ref
            /\ kube_Get w1 (xpv1.Name ref) = ((pc, None), w2)
            /\ CommonCredentialExtractor w2
                 (apisv1alpha1.Source (apisv1alpha1.Spec_Credentials pc))
                 (apisv1alpha1.CommonCredentialSelectors
                    (apisv1alpha1.Spec_Credentials pc))
               = ((data, None), w3)
            /\ newServiceFn w3 data = ((svc, Some cause), w4)
            /\ e = errors.withMessage cause errNewClient
            /\ world σ' = w4
            /\ trace σ'
               = (trace σ
                  ++ [EvTrack h; EvGet (xpv1.Name ref);
                      EvExtract
                        (apisv1alpha1.Source (apisv1alpha1.Spec_Credentials pc))
                        (apisv1alpha1.CommonCredentialSelectors
                           (apisv1alpha1.Spec_Credentials pc));
                      EvNewService data])%list)).
Proof.
  connect_cases h σ; intros [= <- <- <-]; simpl;
    rewrite <- ?app_assoc; simpl; (split; [reflexivity|]);
    (split; [by destruct σ as [[? ?] ? ?]|]).
  - right; left. by exists cause1, w1.
  - right; right; left. by exists cr, ref, w1, pc, cause2, w2.
  - right; right; right; left. by exists cr, ref, w1, pc, w2, data, cause3, w3.
  - right; right; right; right.
    by exists cr, ref, w1, pc, w2, data, w3, svc, cause4, w4.
  - left. eauto.
  - right; left. by exists cause1, w1.
Qed.


(** Connect closes nothing. *)
Lemma Connect_closes_nothing h σ :
  closed (trace (Connect h σ).2) = closed (trace σ).
Proof.
  connect_cases h σ; rewrite <- ?app_assoc, ?closed_app; simpl;
    by rewrite ?app_nil_r.
Qed.

Lemma Disconnect_run σ :
  Disconnect σ =
    (Returns None,
     {| c := {| log := log (c σ); cachedClient := None |};
        world := match cachedClient (c σ) with
                 | Some client => Close (world σ) client
                 | None => world σ
                 end;
        trace := match cachedClient (c σ) with
                 | Some client => trace σ ++ [EvClose client]
                 | None => trace σ
                 end |}).
Proof. conn. by destruct (cachedClient (c σ)). Qed.

(** X12. Disconnect returns nil, closes the cached client if there is one
    (and nothing else) and leaves no client cached; a second Disconnect
    right after changes nothing and closes nothing, so no client is closed
    twice. *)
Theorem Disconnect_twice σ :
  (Disconnect σ).1 = Returns None
  /\ cachedClient (c (Disconnect σ).2) = None
  /\ closed (trace (Disconnect σ).2)
     = (closed (trace σ)
        ++ match cachedClient (c σ) with
           | Some client => [client]
           | None => []
           end)%list
  /\ Disconnect (Disconnect σ).2 = (Returns None, (Disconnect σ).2).
Proof.
  rewrite (Disconnect_run σ). simpl.
  split; [reflexivity|]. split; [reflexivity|]. split.
  - destruct (cachedClient (c σ)); simpl; [apply closed_app|].
    by rewrite app_nil_r.
  - by rewrite Disconnect_run.
Qed.

(** X13. Connect, then Disconnect. A successful Connect caches the client
    it hands out without closing the one cached before, and the
    Disconnect that follows closes exactly the client handed out (none if
    it is nil): a client still cached when Connect is called is never
    closed by the pair. *)
Theorem Connect_then_Disconnect h σ x σ' :
  Connect h σ = (Returns (Some x, None), σ') ->
  cachedClient (c σ') = external_kafkaClient x
  /\ closed (trace σ') = closed (trace σ)
  /\ closed (trace (Disconnect σ').2)
     = (closed (trace σ)
        ++ match external_kafkaClient x with
           | Some client => [client]
           | None => []
           end)%list.
Proof.
  intros Hconnect.
  assert (cachedClient (c σ') = external_kafkaClient x) as Hcache.
  { revert Hconnect. connect_cases h σ; try discriminate.
    by intros [= <- <-]. }
  assert (closed (trace σ') = closed (trace σ)) as Hclosed.
  { pose proof (Connect_closes_nothing h σ) as H. by rewrite Hconnect in H. }
  repeat split; try done.
  rewrite (Disconnect_run σ'). simpl. rewrite Hcache.
  destruct (external_kafkaClient x); simpl.
  - by rewrite closed_app, Hclosed.
  - by rewrite Hclosed, app_nil_r.
Qed.

End ConnectorFacts.

(** ** The further properties at concrete stores and sessions *)

Lemma Observe_gateway_failure_witness :
  let cr := Scenario.bound Scenario.token Scenario.alice in
  let s := Scenario.store (IsAccessControlList cr) Fixture.unreachable_cluster in
  Observe (P:=SpecAcl.package) s =
    (Returns (managed.ExternalObservation_zero,
              Some (errors.withMessage SpecAcl.RemoteUnavailable errListACL)),
     {| mg := IsAccessControlList cr; kafkaClient := Fixture.unreachable_cluster;
        calls := calls s ++ [CallList (SpecAcl.Generate Scenario.alice)];
        now := now s |})
  /\ errors.Error (errors.withMessage SpecAcl.RemoteUnavailable errListACL)
     = "cannot List ACLs: " ++ errors.Error SpecAcl.RemoteUnavailable.
Proof.
  apply (Observe_gateway_failure (P:=SpecAcl.package)
           (Scenario.store
              (IsAccessControlList (Scenario.bound Scenario.token Scenario.alice))
              Fixture.unreachable_cluster)
           (Scenario.bound Scenario.token Scenario.alice)
           (SpecAcl.Generate Scenario.alice) None None
           SpecAcl.RemoteUnavailable Fixture.unreachable_cluster).
  - reflexivity.
  - vm_compute. discriminate.
  - vm_compute. reflexivity.
  - vm_compute. reflexivity.
  - vm_compute. reflexivity.
Defined.

Lemma Delete_submits_declared_witness :
  let s := Scenario.store (IsAccessControlList Scenario.unbound)
                          Scenario.cluster_with_rule in
  Delete (P:=SpecAcl.package) s =
    (Returns (SpecAcl.Delete Scenario.cluster_with_rule
                (SpecAcl.Generate Scenario.alice)).1,
     {| mg := IsAccessControlList Scenario.unbound;
        kafkaClient := (SpecAcl.Delete Scenario.cluster_with_rule
                          (SpecAcl.Generate Scenario.alice)).2;
        calls := calls s ++ [CallDelete (SpecAcl.Generate Scenario.alice)];
        now := now s |}).
Proof.
  apply (Delete_submits_declared (P:=SpecAcl.package)
           (Scenario.store (IsAccessControlList Scenario.unbound)
                           Scenario.cluster_with_rule)
           Scenario.unbound).
  reflexivity.
Defined.

Lemma Create_then_Observe_witness :
  let s := Scenario.store (IsAccessControlList Scenario.unbound)
                          Scenario.empty_cluster in
  let generated := SpecAcl.Generate Scenario.alice in
  let created := (SpecAcl.Create Scenario.empty_cluster generated).2 in
  (Observe (P:=SpecAcl.package) (Create (P:=SpecAcl.package) s).2).1 =
    match (SpecAcl.List created generated).1 with
    | (_, Some cause) =>
        Returns (managed.ExternalObservation_zero,
                 Some (errors.withMessage cause errListACL))
    | (None, None) =>
        Returns ({| managed.ResourceExists := false;
                    managed.ResourceUpToDate := false;
                    managed.ResourceLateInitialized := false |}, None)
    | (Some _, None) =>
        Returns ({| managed.ResourceExists := true;
                    managed.ResourceUpToDate := true;
                    managed.ResourceLateInitialized := false |}, None)
    end
  /\ calls (Observe (P:=SpecAcl.package) (Create (P:=SpecAcl.package) s).2).2
     = (calls s ++ [CallCreate generated; CallList generated])%list.
Proof.
  apply (Create_then_Observe (P:=SpecAcl.package)
           (Scenario.store (IsAccessControlList Scenario.unbound)
                           Scenario.empty_cluster)
           Scenario.unbound Scenario.token (SpecAcl.Generate Scenario.alice)
           None).
  - reflexivity.
  - reflexivity.
  - vm_compute. reflexivity.
  - vm_compute. discriminate.
  - vm_compute. reflexivity.
  - vm_compute. reflexivity.
Defined.

Lemma Create_twice_witness :
  let s := Scenario.store (IsAccessControlList Scenario.unbound)
                          Scenario.empty_cluster in
  let generated := SpecAcl.Generate Scenario.alice in
  let created := (SpecAcl.Create Scenario.empty_cluster generated).2 in
  Create (P:=SpecAcl.package) (Create (P:=SpecAcl.package) s).2 =
    (Returns (managed.ExternalCreation_zero,
              (SpecAcl.Create created generated).1),
     {| mg := mg (Create (P:=SpecAcl.package) s).2;
        kafkaClient := (SpecAcl.Create created generated).2;
        calls := calls s ++ [CallCreate generated; CallCreate generated];
        now := now s |})
  /\ mg (Create (P:=SpecAcl.package) s).2
     = IsAccessControlList (SetExternalName Scenario.unbound Scenario.token).
Proof.
  apply (Create_twice (P:=SpecAcl.package)
           (Scenario.store (IsAccessControlList Scenario.unbound)
                           Scenario.empty_cluster)
           Scenario.unbound Scenario.token).
  - reflexivity.
  - reflexivity.
  - vm_compute. reflexivity.
  - vm_compute. discriminate.
Defined.

Lemma Observe_twice_witness :
  let cr := Scenario.bound Scenario.token Scenario.alice in
  let s := Scenario.store (IsAccessControlList cr) Scenario.cluster_with_rule in
  let s1 := (Observe (P:=SpecAcl.package) s).2 in
  let s1_later := {| mg := mg s1; kafkaClient := kafkaClient s1;
                     calls := calls s1; now := 1700000600 |} in
  (Observe (P:=SpecAcl.package) s1_later).1 = (Observe (P:=SpecAcl.package) s).1
  /\ mg (Observe (P:=SpecAcl.package) s1_later).2 = mg s1.
Proof.
  apply (Observe_twice (P:=SpecAcl.package)
           (Scenario.store
              (IsAccessControlList (Scenario.bound Scenario.token Scenario.alice))
              Scenario.cluster_with_rule)
           (Scenario.bound Scenario.token Scenario.alice)
           (SpecAcl.Generate Scenario.alice) (SpecAcl.Generate Scenario.alice)
           (SpecAcl.Generate Scenario.alice) None
           Scenario.cluster_with_rule Scenario.cluster_with_rule 1700000600).
  - reflexivity.
  - vm_compute. discriminate.
  - vm_compute. reflexivity.
  - vm_compute. reflexivity.
  - vm_compute. reflexivity.
  - vm_compute. reflexivity.
Defined.

Lemma Connect_success_witness :
  let h := IsAccessControlList Scenario.unbound in
  Connect (C:=Fixture.collaborators Fixture.default_ref) h Fixture.session =
    (Returns (Some {| external_kafkaClient := Some 0%nat;
                      external_log := "acl" |}, None),
     {| c := {| log := "acl"; cachedClient := Some 0%nat |};
        world := 1%nat;
        trace := [EvTrack h; EvGet "default"; EvExtract "Secret" tt;
                  EvNewService Fixture.creds] |}).
Proof.
  apply (Connect_success (C:=Fixture.collaborators Fixture.default_ref)
           (IsAccessControlList Scenario.unbound) Fixture.session
           Scenario.unbound {| xpv1.Name := "default" |} Fixture.default_config
           Fixture.creds (Some 0%nat) 0%nat 0%nat 0%nat 1%nat);
    reflexivity.
Defined.

Lemma Connect_failure_witness :
  let h := IsAccessControlList Scenario.unbound in
  let σ := Fixture.session in
  let e := errors.withMessage (errors.fundamental "not found") errGetPC in
  let σ' := {| c := c Fixture.session; world := 0%nat;
               trace := [EvTrack h; EvGet "staging"] |} in
  let Source_of (pc : apisv1alpha1.ProviderConfig unit) :=
    apisv1alpha1.Source (apisv1alpha1.Spec_Credentials pc) in
  let Selectors_of (pc : apisv1alpha1.ProviderConfig unit) :=
    apisv1alpha1.CommonCredentialSelectors (apisv1alpha1.Spec_Credentials pc) in
  (None : option (external nat string)) = None
  /\ c σ' = c σ
  /\ ((e = errors.fundamental errNotAccessControlList
       /\ (exists kind a, h = OtherKind kind a) /\ σ' = σ)
      \/ (exists cause w1,
            usage_Track (Collaborators:=Fixture.collaborators Fixture.missing_ref) (world σ) h = (Some cause, w1)
            /\ e = errors.withMessage cause errTrackPCUsage
            /\ world σ' = w1
            /\ trace σ' = (trace σ ++ [EvTrack h])%list)
      \/ (exists cr ref w1 pc cause w2,
            h = IsAccessControlList cr
            /\ usage_Track (Collaborators:=Fixture.collaborators Fixture.missing_ref) (world σ) h = (None, w1)
            /\ GetProviderConfigReference (Collaborators:=Fixture.collaborators Fixture.missing_ref) cr = Some ref
            /\ kube_Get (Collaborators:=Fixture.collaborators Fixture.missing_ref) w1 (xpv1.Name ref) = ((pc, Some cause), w2)
            /\ e = errors.withMessage cause errGetPC
            /\ world σ' = w2
            /\ trace σ' = (trace σ ++ [EvTrack h; EvGet (xpv1.Name ref)])%list)
      \/ (exists cr ref w1 pc w2 data cause w3,
            h = IsAccessControlList cr
            /\ usage_Track (Collaborators:=Fixture.collaborators Fixture.missing_ref) (world σ) h = (None, w1)
            /\ GetProviderConfigReference (Collaborators:=Fixture.collaborators Fixture.missing_ref) cr = Some ref
            /\ kube_Get (Collaborators:=Fixture.collaborators Fixture.missing_ref) w1 (xpv1.Name ref) = ((pc, None), w2)
            /\ CommonCredentialExtractor (Collaborators:=Fixture.collaborators Fixture.missing_ref) w2 (Source_of pc) (Selectors_of pc)
               = ((data, Some cause), w3)
            /\ e = errors.withMessage cause errGetCreds
            /\ world σ' = w3
            /\ trace σ'
               = (trace σ
                  ++ [EvTrack h; EvGet (xpv1.Name ref);
                      EvExtract (Source_of pc) (Selectors_of pc)])%list)
      \/ (exists cr ref w1 pc w2 data w3 svc cause w4,
            h = IsAccessControlList cr
            /\ usage_Track (Collaborators:=Fixture.collaborators Fixture.missing_ref) (world σ) h = (None, w1)
            /\ GetProviderConfigReference (Collaborators:=Fixture.collaborators Fixture.missing_ref) cr = Some ref
            /\ kube_Get (Collaborators:=Fixture.collaborators Fixture.missing_ref) w1 (xpv1.Name ref) = ((pc, None), w2)
            /\ CommonCredentialExtractor (Collaborators:=Fixture.collaborators Fixture.missing_ref) w2 (Source_of pc) (Selectors_of pc)
               = ((data, None), w3)
            /\ newServiceFn (Collaborators:=Fixture.collaborators Fixture.missing_ref) w3 data = ((svc, Some cause), w4)
            /\ e = errors.withMessage cause errNewClient
            /\ world σ' = w4
            /\ trace σ'
               = (trace σ
                  ++ [EvTrack h; EvGet (xpv1.Name ref);
                      EvExtract (Source_of pc) (Selectors_of pc);
                      EvNewService data])%list)).
Proof.
  apply (Connect_failure (C:=Fixture.collaborators Fixture.missing_ref)
           (IsAccessControlList Scenario.unbound) Fixture.session None
           (errors.withMessage (errors.fundamental "not found") errGetPC)
           {| c := c Fixture.session; world := 0%nat;
              trace := [EvTrack (IsAccessControlList Scenario.unbound);
                        EvGet "staging"] |}).
  reflexivity.
Defined.

Lemma Connect_then_Disconnect_witness :
  let h := IsAccessControlList Scenario.unbound in
  let x := {| external_kafkaClient := Some 8%nat; external_log := "acl" |} in
  let σ' := (Connect (C:=Fixture.collaborators Fixture.default_ref) h
               Fixture.busy_session).2 in
  cachedClient (c σ') = external_kafkaClient x
  /\ closed (trace σ') = closed (trace Fixture.busy_session)
  /\ closed (trace (Disconnect (C:=Fixture.collaborators Fixture.default_ref)
                      σ').2)
     = (closed (trace Fixture.busy_session) ++ [8%nat])%list.
Proof.
  apply (Connect_then_Disconnect (C:=Fixture.collaborators Fixture.default_ref)
           (IsAccessControlList Scenario.unbound) Fixture.busy_session
           {| external_kafkaClient := Some 8%nat; external_log := "acl" |}).
  reflexivity.
Defined.

(** ** What holds along any sequence of operations *)

Section ControllerInvariants.

Context {Params ACL Cluster : Type} `{P : !acl.Package Params ACL Cluster}.

Implicit Types (s : Store Params ACL Cluster) (cr : AccessControlList Params)
  (d : ACL) (r : Request) (rs : list Request).

(** X14. Whatever Observe returns, the late-initialized flag is false;
    up-to-date is reported only together with existence and a nil error;
    and an error comes with exists=true only when the pass stopped at the
    comparison, before any round trip. *)
Theorem Observe_result_shape s (obs : managed.ExternalObservation) (err : error) :
  (Observe s).1 = Returns (obs, err) ->
  managed.ResourceLateInitialized obs = false
  /\ (managed.ResourceUpToDate obs = true ->
      managed.ResourceExists obs = true /\ err = None)
  /\ (managed.ResourceExists obs = true -> err ≠ None ->
      managed.ResourceUpToDate obs = false /\ (Observe s).2 = s).
Proof.
  destruct (mg s) as [cr|kind a|] eqn:Hmg;
    [| | assert (Observe s = (Panics nilDereference, s))
           as -> by (run; by rewrite Hmg); done].
  - destruct (String.eqb (meta.GetExternalName (Annotations cr)) "") eqn:Hext.
    + assert (Observe s = (Returns (managed.ExternalObservation_zero, None), s))
        as -> by (run; by rewrite Hmg, Hext).
      intros [= <- <-]. done.
    + apply String.eqb_neq in Hext.
      destruct (acl.ConvertFromJSON (meta.GetExternalName (Annotations cr)))
        as [[d|] e] eqn:Hdec.
      * destruct (acl.CompareAcls d (acl.Generate (Spec_ForProvider cr)))
          eqn:Hcmp.
        -- rewrite (Observe_equal s cr d e Hmg Hext Hdec Hcmp).
           destruct (acl.List (kafkaClient s) d) as [[[ae|] [cause|]] k];
             simpl; intros [= <- <-]; done.
        -- rewrite (Observe_not_equal s cr d e Hmg Hext Hdec Hcmp).
           intros [= <- <-]. done.
      * by rewrite (Observe_nil_descriptor s cr e Hmg Hext Hdec).
  - assert (Observe s =
            (Returns (managed.ExternalObservation_zero,
                      errors.New errNotAccessControlList), s))
      as -> by (run; by rewrite Hmg).
    intros [= <- <-]. done.
Qed.

Lemma perform_calls r s :
  exists extra,
    calls (perform r s) = (calls s ++ extra)%list /\ length extra <= 1.
Proof.
  assert (forall l : list (GatewayCall ACL),
            exists extra, l = (l ++ extra)%list /\ length extra <= 1) as none.
  { intros l. exists []. split; [by rewrite app_nil_r | simpl; lia]. }
  assert (forall (l : list (GatewayCall ACL)) call,
            exists extra, (l ++ [call])%list = (l ++ extra)%list
                          /\ length extra <= 1) as one.
  { intros l call. exists [call]. split; [reflexivity | simpl; lia]. }
  destruct r; simpl.
  - destruct (Observe_writes s) as (_ & _ & [[-> _] | (d & -> & _)]);
      [apply none | apply one].
  - run. destruct (mg s) as [cr|kind a|]; [|apply none..].
    destruct (acl.ConvertToJSON (acl.Generate (Spec_ForProvider cr)))
      as [token [cause|]]; [apply none|].
    destruct (String.eqb (meta.GetExternalName (Annotations cr)) ""); simpl;
      destruct (acl.Create (kafkaClient s) _); simpl; apply one.
  - apply none.
  - run. destruct (mg s) as [cr|kind a|]; [|apply none..].
    destruct (acl.Delete (kafkaClient s) _). simpl. apply one.
Qed.

Lemma perform_bound r s cr :
  mg s = IsAccessControlList cr ->
  meta.GetExternalName (Annotations cr) ≠ "" ->
  exists cr',
    mg (perform r s) = IsAccessControlList cr'
    /\ Annotations cr' = Annotations cr
    /\ Spec_ForProvider cr' = Spec_ForProvider cr.
Proof.
  intros Hmg Hext. destruct r; simpl.
  - destruct (Observe_writes s) as (Hid & _). rewrite Hmg in Hid.
    destruct (mg (Observe s).2) as [cr'|kind a|]; simpl in Hid; [|done..].
    exists cr'. by injection Hid as -> ->.
  - exists cr.
    destruct (acl.ConvertToJSON (acl.Generate (Spec_ForProvider cr)))
      as [token [cause|]] eqn:Henc.
    + run. by rewrite Hmg, Henc.
    + by rewrite (Create_bound s cr token Hmg Hext Henc).
  - by exists cr.
  - exists cr. run. rewrite Hmg.
    destruct (acl.Delete (kafkaClient s) _). simpl. by rewrite Hmg.
Qed.

(** X15. Once a token is bound, no sequence of Observe, Create, Update
    and Delete rewrites it: after any such sequence the handle is still
    the AccessControlList, with the same annotations (the token among
    them) and the same declaration. *)
Theorem token_never_rewritten rs s cr :
  mg s = IsAccessControlList cr ->
  meta.GetExternalName (Annotations cr) ≠ "" ->
  exists cr',
    mg (perform_all rs s) = IsAccessControlList cr'
    /\ Annotations cr' = Annotations cr
    /\ Spec_ForProvider cr' = Spec_ForProvider cr.
Proof.
  revert s cr. induction rs as [|r rs IH]; intros s cr Hmg Hext.
  - by exists cr.
  - destruct (perform_bound r s cr Hmg Hext) as (cr1 & Hmg1 & Ha & Hs).
    destruct (IH (perform r s) cr1 Hmg1) as (cr' & Hmg' & Ha' & Hs').
    + by rewrite Ha.
    + exists cr'. simpl. by rewrite <- Ha, <- Hs.
Qed.

(** X16. A sequence of operations only appends to the log of Admin
    Gateway round trips, and by at most one round trip per operation. *)
Theorem round_trips_bounded rs s :
  exists extra,
    calls (perform_all rs s) = (calls s ++ extra)%list
    /\ length extra <= length rs.
Proof.
  revert s. induction rs as [|r rs IH]; intros s.
  - exists []. by rewrite app_nil_r.
  - destruct (perform_calls r s) as (e1 & He1 & Hl1).
    destruct (IH (perform r s)) as (e2 & He2 & Hl2).
    exists (e1 ++ e2)%list. simpl. split.
    + by rewrite He2, He1, app_assoc.
    + rewrite length_app. simpl. lia.
Qed.

End ControllerInvariants.

Lemma Observe_result_shape_witness :
  let cr := Scenario.bound Scenario.token Scenario.alice_write in
  let s := Scenario.store (IsAccessControlList cr) Scenario.cluster_with_rule in
  let obs := {| managed.ResourceExists := true;
                managed.ResourceUpToDate := false;
                managed.ResourceLateInitialized := false |} in
  let err := errors.New Scenario.operation_drift in
  managed.ResourceLateInitialized obs = false
  /\ (managed.ResourceUpToDate obs = true ->
      managed.ResourceExists obs = true /\ err = None)
  /\ (managed.ResourceExists obs = true -> err ≠ None ->
      managed.ResourceUpToDate obs = false
      /\ (Observe (P:=SpecAcl.package) s).2 = s).
Proof.
  apply (Observe_result_shape (P:=SpecAcl.package)
           (Scenario.store
              (IsAccessControlList
                 (Scenario.bound Scenario.token Scenario.alice_write))
              Scenario.cluster_with_rule)).
  vm_compute. reflexivity.
Defined.

Lemma token_never_rewritten_witness :
  let cr := Scenario.bound Scenario.token Scenario.alice_write in
  let s := Scenario.store (IsAccessControlList cr) Scenario.cluster_with_rule in
  exists cr',
    mg (perform_all (P:=SpecAcl.package)
          [DoObserve; DoCreate; DoUpdate; DoDelete; DoObserve] s)
    = IsAccessControlList cr'
    /\ Annotations cr' = Annotations cr
    /\ Spec_ForProvider cr' = Spec_ForProvider cr.
Proof.
  apply (token_never_rewritten (P:=SpecAcl.package)
           [DoObserve; DoCreate; DoUpdate; DoDelete; DoObserve]
           (Scenario.store
              (IsAccessControlList
                 (Scenario.bound Scenario.token Scenario.alice_write))
              Scenario.cluster_with_rule)
           (Scenario.bound Scenario.token Scenario.alice_write)).
  - reflexivity.
  - vm_compute. discriminate.
Defined.

